(** * Three-way match of an invoice against its purchase order and goods receipt

    A shallow embedding of [perform_three_way_match] from
    [backend/server.py], and the properties of its line matching, variance
    computation, status escalation and aggregates.

    Numbers are Python [float]s, that is IEEE 754 binary64 values: they are
    modelled by Rocq's primitive floats, which are the same format with the
    same rounding, so [a / b], [abs a] and [a > b] below compute what the
    interpreter computes, infinities, signed zeros and NaN included.  An
    [int] literal that meets a float ([else 0], [... else 0] in a record) is
    the float of the same value. *)

From Stdlib Require Import List String Ascii Bool NArith ZArith Lia.
From Stdlib Require Import Permutation.
From Stdlib Require Import Floats.
Import ListNotations.

#[local] Set Warnings "-inexact-float".
#[local] Open Scope string_scope.
#[local] Open Scope list_scope.

(** ** Data model (the pydantic models of the source) *)

Module LineItem.
Record t : Type := mk {
  description : string;
  quantity : float;
  unit_price : float;
  amount : float
}.
End LineItem.

Module Invoice.
Record t : Type := mk {
  id : option string;
  invoice_number : string;
  vendor_name : string;
  invoice_date : string;
  total_amount : float;
  line_items : list LineItem.t;
  status : option string;
  created_at : option string
}.
End Invoice.

Module PurchaseOrder.
Record t : Type := mk {
  id : option string;
  po_number : string;
  vendor_name : string;
  po_date : string;
  total_amount : float;
  line_items : list LineItem.t;
  status : option string;
  created_at : option string
}.
End PurchaseOrder.

Module GoodsReceipt.
Record t : Type := mk {
  id : option string;
  gr_number : string;
  po_number : string;
  vendor_name : string;
  receipt_date : string;
  line_items : list LineItem.t;
  created_at : option string
}.
End GoodsReceipt.

(** The dict appended to [line_matches] at the end of each iteration: its
    keys are fixed by the dict literal, so it is a record. *)
Module MatchRecord.
Record t : Type := mk {
  description : string;
  invoice_qty : float;
  invoice_price : float;
  invoice_amount : float;
  po_qty : float;
  po_price : float;
  gr_qty : float;
  price_variance_pct : float;
  quantity_variance_pct : float;
  amount_variance : float;
  status : string
}.
End MatchRecord.

Module VerificationResult.
Record t : Type := mk {
  id : option string;
  invoice_id : string;
  po_id : string;
  gr_id : string;
  verification_date : string;
  overall_status : string;
  line_item_matches : list MatchRecord.t;
  total_variance : float;
  price_variance : float;
  quantity_variance : float;
  created_at : option string
}.
End VerificationResult.

(** ** Effects

    The function can leave in two ways besides returning: a float division
    whose divisor equals zero raises [ZeroDivisionError], and building the
    [VerificationResult] raises pydantic's [ValidationError] when a field
    declared [str] receives [None].  A computation also records every
    division it evaluates, as (dividend, divisor), so that "no division is
    performed" can be stated. *)

Inductive exn : Type := ZeroDivisionError | ValidationError.

Inductive outcome (A : Type) : Type :=
| Ok (a : A)
| Raise (e : exn).
Arguments Ok {A} a.
Arguments Raise {A} e.

Definition Division : Type := (float * float)%type.

Definition Py (A : Type) : Type := list Division -> outcome A * list Division.

Definition ret {A : Type} (a : A) : Py A := fun log => (Ok a, log).

Definition bind {A B : Type} (m : Py A) (f : A -> Py B) : Py B :=
  fun log =>
    match m log with
    | (Ok a, log') => f a log'
    | (Raise e, log') => (Raise e, log')
    end.

Definition raise {A : Type} (e : exn) : Py A := fun log => (Raise e, log).

Notation "x <- m ;; k" := (bind m (fun x => k))
  (at level 61, m at next level, right associativity).
Notation "' pat <- m ;; k" := (bind m (fun x => match x with pat => k end))
  (at level 61, pat pattern, m at next level, right associativity).

(** [x / y] on floats: [ZeroDivisionError] when [y == 0] (either zero). *)
Definition truediv (x y : float) : Py float :=
  fun log =>
    (if (y =? 0)%float then Raise ZeroDivisionError else Ok (x / y)%float,
     log ++ [(x, y)]).

(** [for x in xs: body], the loop's variables threaded as [st]. *)
Fixpoint for_each {A S : Type} (body : S -> A -> Py S) (xs : list A) (st : S)
  : Py S :=
  match xs with
  | [] => ret st
  | x :: rest => st' <- body st x ;; for_each body rest st'
  end.

(** A field declared [str] given an [Optional[str]] value. *)
Definition required_str (v : option string) : Py string :=
  match v with
  | Some s => ret s
  | None => raise ValidationError
  end.

(** What the function reads from outside: [uuid.uuid4()] and the two
    [datetime.now().isoformat()] calls, in evaluation order. *)
Record Env : Type := mkEnv {
  uuid4 : string;
  now_verification_date : string;
  now_created_at : string
}.

(** ** The matching algorithm *)

(** The variables the loop of [perform_three_way_match] carries from one
    invoice line to the next. *)
Module Locals.
Record t : Type := mk {
  line_matches : list MatchRecord.t;
  total_variance : float;
  price_variance : float;
  quantity_variance : float;
  overall_status : string
}.
End Locals.

(** The variables set afresh in each iteration. *)
Module Iteration.
Record t : Type := mk {
  po_match : option LineItem.t;
  gr_match : option LineItem.t;
  price_diff : float;
  qty_diff : float;
  amount_diff : float;
  match_status : string
}.
End Iteration.

Definition tolerance : float := 0.05%float.

(** [overall_status = "warning" if overall_status == "pass" else "fail"] *)
Definition escalate (overall_status : string) : string :=
  if String.eqb overall_status "pass" then "warning" else "fail".

(** [abs(inv_item.unit_price - po_match.unit_price) / po_match.unit_price
     if po_match.unit_price > 0 else 0] *)
Definition price_diff_expr (inv_item po_match : LineItem.t) : Py float :=
  if (0 <? LineItem.unit_price po_match)%float
  then truediv (abs (LineItem.unit_price inv_item - LineItem.unit_price po_match))
               (LineItem.unit_price po_match)
  else ret 0%float.

(** [abs(inv_item.quantity - gr_match.quantity) / gr_match.quantity
     if gr_match.quantity > 0 else 0] *)
Definition qty_diff_expr (inv_item gr_match : LineItem.t) : Py float :=
  if (0 <? LineItem.quantity gr_match)%float
  then truediv (abs (LineItem.quantity inv_item - LineItem.quantity gr_match))
               (LineItem.quantity gr_match)
  else ret 0%float.

(** The dict literal of [line_matches.append({...})]. *)
Definition line_record (inv_item : LineItem.t) (it : Iteration.t)
  : MatchRecord.t :=
  {| MatchRecord.description := LineItem.description inv_item;
     MatchRecord.invoice_qty := LineItem.quantity inv_item;
     MatchRecord.invoice_price := LineItem.unit_price inv_item;
     MatchRecord.invoice_amount := LineItem.amount inv_item;
     MatchRecord.po_qty :=
       match Iteration.po_match it with
       | Some p => LineItem.quantity p
       | None => 0%float
       end;
     MatchRecord.po_price :=
       match Iteration.po_match it with
       | Some p => LineItem.unit_price p
       | None => 0%float
       end;
     MatchRecord.gr_qty :=
       match Iteration.gr_match it with
       | Some g => LineItem.quantity g
       | None => 0%float
       end;
     MatchRecord.price_variance_pct := (Iteration.price_diff it * 100)%float;
     MatchRecord.quantity_variance_pct := (Iteration.qty_diff it * 100)%float;
     MatchRecord.amount_variance := Iteration.amount_diff it;
     MatchRecord.status := Iteration.match_status it |}.

Definition initial_locals : Locals.t :=
  {| Locals.line_matches := [];
     Locals.total_variance := 0%float;
     Locals.price_variance := 0%float;
     Locals.quantity_variance := 0%float;
     Locals.overall_status := "pass" |}.

Section Engine.

(** [str.lower]. The algorithm only compares lowered descriptions, so the
    development holds for any lowering function. *)
Variable lower : string -> string.

(** The two inner loops: scan [items] in order and stop ([break]) at the
    first one whose lowered description equals the invoice line's. *)
Fixpoint first_match (items : list LineItem.t) (inv_item : LineItem.t)
  : option LineItem.t :=
  match items with
  | [] => None
  | item :: rest =>
      if String.eqb (lower (LineItem.description item))
                    (lower (LineItem.description inv_item))
      then Some item
      else first_match rest inv_item
  end.

(** The body of the outer loop up to the [append]: the matches, the
    variances, the line status, and the escalated [overall_status].
    [if po_match and gr_match] tests that neither is [None]: a pydantic
    model instance is always true. *)
Definition match_line (po : PurchaseOrder.t) (gr : GoodsReceipt.t)
  (overall_status : string) (inv_item : LineItem.t)
  : Py (Iteration.t * string) :=
  let po_match := first_match (PurchaseOrder.line_items po) inv_item in
  let gr_match := first_match (GoodsReceipt.line_items gr) inv_item in
  match po_match, gr_match with
  | Some po_item, Some gr_item =>
      price_diff <- price_diff_expr inv_item po_item ;;
      qty_diff <- qty_diff_expr inv_item gr_item ;;
      let amount_diff :=
        abs (LineItem.amount inv_item
             - LineItem.unit_price po_item * LineItem.quantity gr_item)%float in
      let '(match_status, overall_status) :=
        if (tolerance <? price_diff)%float
        then ("price_variance", escalate overall_status)
        else ("pass", overall_status) in
      let '(match_status, overall_status) :=
        if (tolerance <? qty_diff)%float
        then ("quantity_variance", escalate overall_status)
        else (match_status, overall_status) in
      ret ({| Iteration.po_match := po_match;
              Iteration.gr_match := gr_match;
              Iteration.price_diff := price_diff;
              Iteration.qty_diff := qty_diff;
              Iteration.amount_diff := amount_diff;
              Iteration.match_status := match_status |}, overall_status)
  | _, _ =>
      ret ({| Iteration.po_match := po_match;
              Iteration.gr_match := gr_match;
              Iteration.price_diff := 0%float;
              Iteration.qty_diff := 0%float;
              Iteration.amount_diff := 0%float;
              Iteration.match_status := "no_match" |}, "fail")
  end.

(** One iteration of the outer loop. *)
Definition loop_body (po : PurchaseOrder.t) (gr : GoodsReceipt.t)
  (st : Locals.t) (inv_item : LineItem.t) : Py Locals.t :=
  '(it, overall_status) <- match_line po gr (Locals.overall_status st) inv_item ;;
  ret {| Locals.line_matches :=
           Locals.line_matches st ++ [line_record inv_item it];
         Locals.total_variance :=
           (Locals.total_variance st + Iteration.amount_diff it)%float;
         Locals.price_variance :=
           (Locals.price_variance st + Iteration.price_diff it)%float;
         Locals.quantity_variance :=
           (Locals.quantity_variance st + Iteration.qty_diff it)%float;
         Locals.overall_status := overall_status |}.

Definition perform_three_way_match (env : Env) (invoice : Invoice.t)
  (po : PurchaseOrder.t) (gr : GoodsReceipt.t) : Py VerificationResult.t :=
  let verification_id := uuid4 env in
  st <- for_each (loop_body po gr) (Invoice.line_items invoice) initial_locals ;;
  invoice_id <- required_str (Invoice.id invoice) ;;
  po_id <- required_str (PurchaseOrder.id po) ;;
  gr_id <- required_str (GoodsReceipt.id gr) ;;
  ret {| VerificationResult.id := Some verification_id;
         VerificationResult.invoice_id := invoice_id;
         VerificationResult.po_id := po_id;
         VerificationResult.gr_id := gr_id;
         VerificationResult.verification_date := now_verification_date env;
         VerificationResult.overall_status := Locals.overall_status st;
         VerificationResult.line_item_matches := Locals.line_matches st;
         VerificationResult.total_variance := Locals.total_variance st;
         VerificationResult.price_variance := Locals.price_variance st;
         VerificationResult.quantity_variance := Locals.quantity_variance st;
         VerificationResult.created_at := Some (now_created_at env) |}.

End Engine.

(** ** Concrete documents

    [str.lower] restricted to ASCII text, where it maps [A]..[Z] to
    [a]..[z] and leaves every other character alone. *)

Definition lower_ascii (c : ascii) : ascii :=
  let n := N_of_ascii c in
  if ((65 <=? n) && (n <=? 90))%N then ascii_of_N (n + 32) else c.

Fixpoint ascii_lower (s : string) : string :=
  match s with
  | EmptyString => EmptyString
  | String c rest => String (lower_ascii c) (ascii_lower rest)
  end.

Definition sample_env : Env :=
  {| uuid4 := "7d0f2a9c-verification";
     now_verification_date := "2025-01-15T10:00:00";
     now_created_at := "2025-01-15T10:00:00" |}.

Definition invoice_of (items : list LineItem.t) : Invoice.t :=
  {| Invoice.id := Some "inv-1";
     Invoice.invoice_number := "INV-001";
     Invoice.vendor_name := "Tech Supplies";
     Invoice.invoice_date := "2025-01-15";
     Invoice.total_amount := 10000%float;
     Invoice.line_items := items;
     Invoice.status := Some "pending";
     Invoice.created_at := None |}.

Definition po_of (items : list LineItem.t) : PurchaseOrder.t :=
  {| PurchaseOrder.id := Some "po-1";
     PurchaseOrder.po_number := "PO-001";
     PurchaseOrder.vendor_name := "Tech Supplies";
     PurchaseOrder.po_date := "2025-01-10";
     PurchaseOrder.total_amount := 10500%float;
     PurchaseOrder.line_items := items;
     PurchaseOrder.status := Some "open";
     PurchaseOrder.created_at := None |}.

Definition gr_of (items : list LineItem.t) : GoodsReceipt.t :=
  {| GoodsReceipt.id := Some "gr-1";
     GoodsReceipt.gr_number := "GR-001";
     GoodsReceipt.po_number := "PO-001";
     GoodsReceipt.vendor_name := "Tech Supplies";
     GoodsReceipt.receipt_date := "2025-01-14";
     GoodsReceipt.line_items := items;
     GoodsReceipt.created_at := None |}.

Definition item (d : string) (q p a : float) : LineItem.t :=
  {| LineItem.description := d;
     LineItem.quantity := q;
     LineItem.unit_price := p;
     LineItem.amount := a |}.

(** Scenario A of the specification: one line, received short; the three
    documents spell the description in different case. *)
Definition laptops_invoice : Invoice.t :=
  invoice_of [item "Laptops" 10 1000 10000].
Definition laptops_po : PurchaseOrder.t :=
  po_of [item "laptops" 10 1050 10500].
Definition laptops_gr : GoodsReceipt.t :=
  gr_of [item "LAPTOPS" 9 1050 9450].

(** One line billed at twice the ordered price and twice the received
    quantity: the only line that varies, and it trips both tolerances. *)
Definition doubled_invoice : Invoice.t :=
  invoice_of [item "Desks" 20 200 4000].
Definition doubled_po : PurchaseOrder.t :=
  po_of [item "Desks" 10 100 1000].
Definition doubled_gr : GoodsReceipt.t :=
  gr_of [item "Desks" 10 100 1000].

(** Scenario C of the specification: "Monitors" is on the invoice only. *)
Definition monitors : LineItem.t := item "Monitors" 5 300 1500.

(** Scenario B of the specification: scenario A and a second line billed at
    100 against an ordered price of 200. *)
Definition mice_invoice : Invoice.t :=
  invoice_of [item "Laptops" 10 1000 10000; item "Mice" 5 100 500].
Definition mice_po : PurchaseOrder.t :=
  po_of [item "laptops" 10 1050 10500; item "Mice" 5 200 1000].
Definition mice_gr : GoodsReceipt.t :=
  gr_of [item "LAPTOPS" 9 1050 9450; item "Mice" 5 200 1000].

(** A credit line: the purchase order carries a negative unit price. *)
Definition credit_po : PurchaseOrder.t :=
  po_of [item "Desks" 10 (-5) (-50)].

(** Scenario B with its two lines in the other order. *)
Definition mice_first_invoice : Invoice.t :=
  invoice_of [item "Mice" 5 100 500; item "Laptops" 10 1000 10000].

(** The same item billed twice, in different case. *)
Definition laptops_twice_invoice : Invoice.t :=
  invoice_of [item "Laptops" 10 1000 10000; item "LAPTOPS" 2 1050 2100].

(** ** Vocabulary of the properties *)

(** The line trips the price, respectively the quantity, tolerance. *)
Definition trips_price (it : Iteration.t) : bool :=
  (tolerance <? Iteration.price_diff it)%float.

Definition trips_quantity (it : Iteration.t) : bool :=
  (tolerance <? Iteration.qty_diff it)%float.

(** A variant line trips at least one of the two. *)
Definition variant_line (it : Iteration.t) : bool :=
  trips_price it || trips_quantity it.

(** Number of tolerance checks (0, 1 or 2) the line trips. *)
Definition tripped_checks (it : Iteration.t) : nat :=
  (if trips_price it then 1 else 0) + (if trips_quantity it then 1 else 0).

(** The line has no PO match or no GR match. *)
Definition unmatched (it : Iteration.t) : bool :=
  match Iteration.po_match it, Iteration.gr_match it with
  | Some _, Some _ => false
  | _, _ => true
  end.

(** A running sum, as [acc += x] computes it from [0.0], left to right. *)
Definition running_sum (xs : list float) : float :=
  fold_left PrimFloat.add xs 0%float.

(** [o] is the first element of [l] that satisfies [P], or [None] when no
    element does. *)
Definition first_satisfying {A : Type} (P : A -> Prop) (l : list A)
  (o : option A) : Prop :=
  match o with
  | Some a =>
      exists before after,
        l = before ++ a :: after /\ P a /\ forall b, In b before -> ~ P b
  | None => forall b, In b l -> ~ P b
  end.

(** The three documents carry their identifier, as every stored document
    does ([create_invoice] and its siblings assign it). *)
Definition identified (invoice : Invoice.t) (po : PurchaseOrder.t)
  (gr : GoodsReceipt.t) : bool :=
  match Invoice.id invoice, PurchaseOrder.id po, GoodsReceipt.id gr with
  | Some _, Some _, Some _ => true
  | _, _, _ => false
  end.

(** [it] holds the per-line variables of the loop body run on [inv_item]. *)
Definition line_iteration (lower : string -> string) (po : PurchaseOrder.t)
  (gr : GoodsReceipt.t) (inv_item : LineItem.t) (it : Iteration.t) : Prop :=
  exists overall_status overall_status' log log',
    match_line lower po gr overall_status inv_item log
    = (Ok (it, overall_status'), log').

(** Descriptions agree case-insensitively. *)
Definition same_description (lower : string -> string)
  (inv_item candidate : LineItem.t) : Prop :=
  lower (LineItem.description candidate)
  = lower (LineItem.description inv_item).

(** What one iteration does to [overall_status], given its variables. *)
Definition escalation_step (overall_status : string) (it : Iteration.t)
  : string :=
  if unmatched it then "fail"
  else
    let after_price :=
      if trips_price it then escalate overall_status else overall_status in
    if trips_quantity it then escalate after_price else after_price.

(** The divisor of every division is strictly positive. *)
Definition positive_divisors (ds : list Division) : Prop :=
  Forall (fun d => (0 <? snd d)%float = true) ds.

(** The line trips both tolerances at once. *)
Definition trips_both (it : Iteration.t) : bool :=
  trips_price it && trips_quantity it.

(** The status reached after [n] escalations from ["pass"]. *)
Definition status_after (n : nat) : string :=
  match n with
  | 0 => "pass"
  | 1 => "warning"
  | _ => "fail"
  end.

(** No divisor is zero. *)
Definition nonzero_divisors (ds : list Division) : Prop :=
  Forall (fun d => (snd d =? 0)%float = false) ds.

(** What the variables of an iteration on [inv_item] are, and the divisions
    [ds] it evaluates. *)
Definition line_facts (lower : string -> string) (po : PurchaseOrder.t)
  (gr : GoodsReceipt.t) (inv_item : LineItem.t) (it : Iteration.t)
  (ds : list Division) : Prop :=
  Iteration.po_match it
       = first_match lower (PurchaseOrder.line_items po) inv_item
    /\ Iteration.gr_match it
       = first_match lower (GoodsReceipt.line_items gr) inv_item
    /\ (unmatched it = true ->
        Iteration.price_diff it = 0%float
        /\ Iteration.qty_diff it = 0%float
        /\ Iteration.amount_diff it = 0%float
        /\ Iteration.match_status it = "no_match"
        /\ ds = [])
    /\ (forall p g,
        Iteration.po_match it = Some p -> Iteration.gr_match it = Some g ->
        Iteration.price_diff it
        = (if (0 <? LineItem.unit_price p)%float
           then (abs (LineItem.unit_price inv_item - LineItem.unit_price p)
                 / LineItem.unit_price p)%float
           else 0%float)
        /\ Iteration.qty_diff it
           = (if (0 <? LineItem.quantity g)%float
              then (abs (LineItem.quantity inv_item - LineItem.quantity g)
                    / LineItem.quantity g)%float
              else 0%float)
        /\ Iteration.amount_diff it
           = abs (LineItem.amount inv_item
                  - LineItem.unit_price p * LineItem.quantity g)%float
        /\ Iteration.match_status it
           = (if trips_quantity it then "quantity_variance"
              else if trips_price it then "price_variance" else "pass")
        /\ ds
           = (if (0 <? LineItem.unit_price p)%float
              then [(abs (LineItem.unit_price inv_item - LineItem.unit_price p),
                     LineItem.unit_price p)]
              else [])
             ++ (if (0 <? LineItem.quantity g)%float
                 then [(abs (LineItem.quantity inv_item - LineItem.quantity g),
                        LineItem.quantity g)]
                 else [])).

(** The per-line variables the loop body computes on [inv_item]: they do
    not depend on the [overall_status] the iteration starts from. *)
Definition iteration_of (lower : string -> string) (po : PurchaseOrder.t)
  (gr : GoodsReceipt.t) (inv_item : LineItem.t) : Iteration.t :=
  match fst (match_line lower po gr "pass" inv_item []) with
  | Ok (it, _) => it
  | Raise _ => Iteration.mk None None 0%float 0%float 0%float "no_match"
  end.

(** The record reports something other than "pass". *)
Definition flagged (record : MatchRecord.t) : bool :=
  negb (String.eqb (MatchRecord.status record) "pass").

(** ** Invoice parsing from extracted text ([parse_invoice_from_text])

    The text is a Python [str], a sequence of Unicode characters.  What
    the [re] module and [float] decide about a character is kept as an
    interface, so the parser is modelled for the character classes of the
    interpreter whatever they are: [is_space], [is_word] and [is_digit]
    are the classes [\s], [\w] and [\d]; [ignoring_case a c] says that [c]
    matches the pattern letter [a] under [re.IGNORECASE]; [exactly a c]
    that [c] is the character [a]; [float_of] is [float] on a string, which
    the parser only applies to digits with at most one dot. *)
Class Chars (char : Type) : Type := {
  is_space : char -> bool;
  is_word : char -> bool;
  is_digit : char -> bool;
  ignoring_case : ascii -> char -> bool;
  exactly : ascii -> char -> bool;
  float_of : list char -> float
}.

Section Parser.

Context {char : Type} `{Chars char}.

(** One element of a pattern: a class of one character under a greedy
    quantifier [{at_least, at_most}] ([None]: no upper bound); [captured]
    tells whether the element lies inside group 1. *)
Record Atom : Type := mkAtom {
  accepts : char -> bool;
  at_least : nat;
  at_most : option nat;
  captured : bool
}.

(** Length of the longest prefix of [s] made of characters in the class. *)
Fixpoint run_length (f : char -> bool) (s : list char) : nat :=
  match s with
  | c :: rest => if f c then S (run_length f rest) else 0
  | [] => 0
  end.

(** What a greedy quantifier takes first: as many characters as it can. *)
Definition greedy_count (a : Atom) (s : list char) : nat :=
  match at_most a with
  | Some m => Nat.min (run_length (accepts a) s) m
  | None => run_length (accepts a) s
  end.

(** Match [a] on [n] characters and go on with the rest of the pattern
    ([k]); when that fails give one character back and retry, down to
    [at_least a].  The result is the text of group 1. *)
Fixpoint backtrack (a : Atom) (k : list char -> option (list char))
  (s : list char) (n : nat) : option (list char) :=
  if Nat.ltb n (at_least a) then None
  else
    match k (skipn n s) with
    | Some g => Some ((if captured a then firstn n s else []) ++ g)
    | None =>
        match n with
        | 0 => None
        | S m => backtrack a k s m
        end
    end.

(** Match the pattern at the start of [s]. *)
Fixpoint match_at (atoms : list Atom) (s : list char) : option (list char) :=
  match atoms with
  | [] => Some []
  | a :: rest => backtrack a (match_at rest) s (greedy_count a s)
  end.

(** [re.search(...).group(1)]: the first position of [s], from the left,
    where the pattern matches; [None] when [re.search] returns [None]. *)
Fixpoint search (atoms : list Atom) (s : list char) : option (list char) :=
  match match_at atoms s with
  | Some g => Some g
  | None =>
      match s with
      | [] => None
      | _ :: rest => search atoms rest
      end
  end.

Definition one (f : char -> bool) : Atom := mkAtom f 1 (Some 1) false.
Definition optional (f : char -> bool) : Atom := mkAtom f 0 (Some 1) false.
Definition star (f : char -> bool) : Atom := mkAtom f 0 None false.
Definition plus (f : char -> bool) : Atom := mkAtom f 1 None false.
Definition between (lo hi : nat) (f : char -> bool) : Atom :=
  mkAtom f lo (Some hi) false.
Definition group (a : Atom) : Atom :=
  mkAtom (accepts a) (at_least a) (at_most a) true.

(** The letters of a word of the pattern, matched ignoring case. *)
Definition literal (word : string) : list Atom :=
  map (fun a => one (ignoring_case a)) (list_ascii_of_string word).

(** The pattern [invoice \s* #? \s* :? \s* ( \w+ )] (written here with
    spaces between its elements), searched with [re.IGNORECASE]. *)
Definition invoice_pattern : list Atom :=
  literal "invoice"
  ++ [star is_space; optional (exactly "#"); star is_space;
      optional (exactly ":"); star is_space; group (plus is_word)].

(** The pattern [total \s* :? \s* \$? ( \d+ \.? \d* )], searched with
    [re.IGNORECASE]. *)
Definition total_pattern : list Atom :=
  literal "total"
  ++ [star is_space; optional (exactly ":"); star is_space;
      optional (exactly "$"); group (plus is_digit);
      group (optional (exactly ".")); group (star is_digit)].

(** The set [/-] of the date pattern. *)
Definition is_separator (c : char) : bool := exactly "/" c || exactly "-" c.

(** The pattern [( \d{1,2} [/-] \d{1,2} [/-] \d{2,4} )]. *)
Definition date_pattern : list Atom :=
  [group (between 1 2 is_digit); group (one is_separator);
   group (between 1 2 is_digit); group (one is_separator);
   group (between 2 4 is_digit)].

(** The dict [invoice_data]. *)
Record ParsedInvoice : Type := mkParsedInvoice {
  invoice_number : list char;
  vendor_name : list char;
  invoice_date : list char;
  total_amount : float;
  line_items : list LineItem.t
}.

Definition parse_invoice_from_text (text : list char) : ParsedInvoice :=
  let invoice_data := mkParsedInvoice [] [] [] 0%float [] in
  let invoice_data :=
    match search invoice_pattern text with
    | Some number =>
        mkParsedInvoice number (vendor_name invoice_data)
          (invoice_date invoice_data) (total_amount invoice_data)
          (line_items invoice_data)
    | None => invoice_data
    end in
  let invoice_data :=
    match search total_pattern text with
    | Some amount =>
        mkParsedInvoice (invoice_number invoice_data)
          (vendor_name invoice_data) (invoice_date invoice_data)
          (float_of amount) (line_items invoice_data)
    | None => invoice_data
    end in
  match search date_pattern text with
  | Some date =>
      mkParsedInvoice (invoice_number invoice_data)
        (vendor_name invoice_data) date (total_amount invoice_data)
        (line_items invoice_data)
  | None => invoice_data
  end.

(** *** Vocabulary of the parser's properties *)

(** [chunk] is a text the element [a] can consume. *)
Definition consumes (a : Atom) (chunk : list char) : Prop :=
  Forall (fun c => accepts a c = true) chunk
  /\ at_least a <= List.length chunk
  /\ match at_most a with
     | Some m => List.length chunk <= m
     | None => True
     end.

(** The text of group 1 when the elements consume [chunks], in order. *)
Fixpoint captured_text (atoms : list Atom) (chunks : list (list char))
  : list char :=
  match atoms, chunks with
  | a :: atoms', chunk :: chunks' =>
      (if captured a then chunk else []) ++ captured_text atoms' chunks'
  | _, _ => []
  end.

(** [part] occurs in [text] as a run of consecutive characters. *)
Definition occurs_in (part text : list char) : Prop :=
  exists before after, text = before ++ part ++ after.

(** A number as [float_of] receives it: digits, at most one dot, a digit
    first. *)
Definition decimal_text (s : list char) : Prop :=
  exists whole dot fraction,
    s = whole ++ dot ++ fraction
    /\ whole <> []
    /\ Forall (fun c => is_digit c = true) whole
    /\ Forall (fun c => is_digit c = true) fraction
    /\ (dot = [] \/ exists c, dot = [c] /\ exactly "." c = true).

(** A date as the parser takes it: digits, separator, digits, separator,
    digits. *)
Definition date_text (s : list char) : Prop :=
  exists d1 s1 d2 s2 d3,
    s = d1 ++ [s1] ++ d2 ++ [s2] ++ d3
    /\ Forall (fun c => is_digit c = true) (d1 ++ d2 ++ d3)
    /\ is_separator s1 = true /\ is_separator s2 = true
    /\ 1 <= List.length d1 <= 2
    /\ 1 <= List.length d2 <= 2
    /\ 2 <= List.length d3 <= 4.

End Parser.

(** [str] restricted to ASCII text: the classes of [re] on the characters
    below 128, and [float] on a decimal text short enough for the quotient
    of two exact floats to be the correctly rounded value (at most 15
    digits in all). *)
Definition ascii_code (c : ascii) : N := N_of_ascii c.

Definition ascii_space (c : ascii) : bool :=
  let n := ascii_code c in
  (((9 <=? n) && (n <=? 13)) || ((28 <=? n) && (n <=? 32)))%N.

Definition ascii_digit (c : ascii) : bool :=
  let n := ascii_code c in ((48 <=? n) && (n <=? 57))%N.

Definition ascii_word (c : ascii) : bool :=
  let n := ascii_code c in
  (ascii_digit c || ((65 <=? n) && (n <=? 90)) || ((97 <=? n) && (n <=? 122))
   || (n =? 95))%N.

Definition ascii_ignoring_case (a c : ascii) : bool :=
  Ascii.eqb (lower_ascii a) (lower_ascii c).

(** The digits of [s] read as a natural number, and how many they are. *)
Fixpoint digits_value (s : list ascii) (acc : Z) : Z :=
  match s with
  | [] => acc
  | c :: rest =>
      if ascii_digit c
      then digits_value rest (10 * acc + (Z.of_N (ascii_code c) - 48))
      else digits_value rest acc
  end.

Fixpoint after_dot (s : list ascii) : list ascii :=
  match s with
  | [] => []
  | c :: rest => if Ascii.eqb c "." then rest else after_dot rest
  end.

Definition float_of_Z (z : Z) : float :=
  PrimFloat.of_uint63 (Uint63.of_Z z).

Definition ascii_float_of (s : list ascii) : float :=
  (float_of_Z (digits_value s 0)
   / float_of_Z (10 ^ Z.of_nat (List.length (after_dot s))))%float.

#[export] Instance ascii_chars : Chars ascii := {|
  is_space := ascii_space;
  is_word := ascii_word;
  is_digit := ascii_digit;
  ignoring_case := ascii_ignoring_case;
  exactly := Ascii.eqb;
  float_of := ascii_float_of
|}.

(** The parser on a string literal. *)
Definition parse_ascii (text : string) : ParsedInvoice :=
  parse_invoice_from_text (list_ascii_of_string text).

(** A text as extracted from a printed invoice, and one without digits. *)
Definition printed_invoice : string :=
  "INVOICE #: INV-001  Date: 01/15/2024  Subtotal: 90.50  Total: $100.25".

Definition undated_note : string := "Invoice ABC, total due on receipt".

(** ** Facts about float comparison *)

Lemma float_pos_nonzero (x : float) :
  (0 <? x)%float = true -> (x =? 0)%float = false.
Proof.
  rewrite ltb_spec, eqb_spec.
  change (Prim2SF 0) with (S754_zero false).
  unfold SFltb, SFeqb.
  destruct (Prim2SF x) as [[]|[]| |[] m e]; cbn; congruence.
Qed.

Lemma float_zero_not_pos (x : float) :
  (x =? 0)%float = true -> (0 <? x)%float = false.
Proof.
  intros Hz. destruct (0 <? x)%float eqn:Hp; [|reflexivity].
  apply float_pos_nonzero in Hp. congruence.
Qed.

Lemma SFcompare_antisym (a b : spec_float) :
  SFcompare b a = option_map CompOpp (SFcompare a b).
Proof.
  destruct a as [[]|[]| |[] m1 e1], b as [[]|[]| |[] m2 e2]; cbn;
    try reflexivity;
    rewrite (Z.compare_antisym e1 e2);
    destruct (e1 ?= e2)%Z; cbn; try reflexivity;
    change (Pos.compare_cont Eq m2 m1) with (m2 ?= m1)%positive;
    change (Pos.compare_cont Eq m1 m2) with (m1 ?= m2)%positive;
    rewrite (Pos.compare_antisym m1 m2);
    destruct (m1 ?= m2)%positive; reflexivity.
Qed.

Lemma float_le_not_gt (x y : float) :
  (x <=? y)%float = true -> (y <? x)%float = false.
Proof.
  rewrite leb_spec, ltb_spec. unfold SFleb, SFltb.
  rewrite (SFcompare_antisym (Prim2SF x) (Prim2SF y)).
  destruct (SFcompare (Prim2SF x) (Prim2SF y)) as [[]|]; cbn; congruence.
Qed.

Section Facts.

Variable lower : string -> string.

(** ** The two guarded divisions *)

Lemma price_diff_expr_run (inv_item p : LineItem.t) (log : list Division) :
  price_diff_expr inv_item p log
  = (Ok (if (0 <? LineItem.unit_price p)%float
         then (abs (LineItem.unit_price inv_item - LineItem.unit_price p)
               / LineItem.unit_price p)%float
         else 0%float),
     log ++ (if (0 <? LineItem.unit_price p)%float
             then [(abs (LineItem.unit_price inv_item - LineItem.unit_price p),
                    LineItem.unit_price p)]
             else [])).
Proof.
  unfold price_diff_expr.
  destruct (0 <? LineItem.unit_price p)%float eqn:Hpos.
  - unfold truediv. now rewrite (float_pos_nonzero _ Hpos).
  - unfold ret. now rewrite app_nil_r.
Qed.

Lemma qty_diff_expr_run (inv_item g : LineItem.t) (log : list Division) :
  qty_diff_expr inv_item g log
  = (Ok (if (0 <? LineItem.quantity g)%float
         then (abs (LineItem.quantity inv_item - LineItem.quantity g)
               / LineItem.quantity g)%float
         else 0%float),
     log ++ (if (0 <? LineItem.quantity g)%float
             then [(abs (LineItem.quantity inv_item - LineItem.quantity g),
                    LineItem.quantity g)]
             else [])).
Proof.
  unfold qty_diff_expr.
  destruct (0 <? LineItem.quantity g)%float eqn:Hpos.
  - unfold truediv. now rewrite (float_pos_nonzero _ Hpos).
  - unfold ret. now rewrite app_nil_r.
Qed.

(** ** One iteration *)

Lemma match_line_run (po : PurchaseOrder.t) (gr : GoodsReceipt.t)
  (os : string) (inv_item : LineItem.t) (log : list Division) :
  exists it ds,
    match_line lower po gr os inv_item log
    = (Ok (it, escalation_step os it), log ++ ds)
    /\ line_facts lower po gr inv_item it ds.
Proof.
  unfold match_line, line_facts.
  destruct (first_match lower (PurchaseOrder.line_items po) inv_item) as [p|] eqn:Hp;
    [destruct (first_match lower (GoodsReceipt.line_items gr) inv_item) as [g|] eqn:Hg|].
  - unfold bind at 1. rewrite price_diff_expr_run.
    unfold bind at 1. rewrite qty_diff_expr_run.
    set (pd := if (0 <? LineItem.unit_price p)%float then _ else 0%float).
    set (qd := if (0 <? LineItem.quantity g)%float then _ else 0%float).
    set (ds1 := if (0 <? LineItem.unit_price p)%float then [_] else []).
    set (ds2 := if (0 <? LineItem.quantity g)%float then [_] else []).
    exists {| Iteration.po_match := Some p;
              Iteration.gr_match := Some g;
              Iteration.price_diff := pd;
              Iteration.qty_diff := qd;
              Iteration.amount_diff :=
                abs (LineItem.amount inv_item
                     - LineItem.unit_price p * LineItem.quantity g)%float;
              Iteration.match_status :=
                if (tolerance <? qd)%float then "quantity_variance"
                else if (tolerance <? pd)%float then "price_variance"
                else "pass" |}, (ds1 ++ ds2).
    unfold escalation_step, unmatched, trips_price, trips_quantity, ret.
    cbv [Iteration.po_match Iteration.gr_match Iteration.price_diff
         Iteration.qty_diff Iteration.amount_diff Iteration.match_status].
    rewrite <- app_assoc. split.
    + destruct (tolerance <? pd)%float, (tolerance <? qd)%float; reflexivity.
    + split; [reflexivity|]. split; [reflexivity|]. split; [discriminate|].
      intros p' g' Hp' Hg'. injection Hp' as <-. injection Hg' as <-.
      repeat split; reflexivity.
  - exists (Iteration.mk (Some p) None 0%float 0%float 0%float "no_match"), [].
    unfold ret. rewrite app_nil_r. cbn.
    repeat split; try reflexivity; intros; discriminate.
  - exists (Iteration.mk None
              (first_match lower (GoodsReceipt.line_items gr) inv_item)
              0%float 0%float 0%float "no_match"), [].
    unfold ret. rewrite app_nil_r.
    destruct (first_match lower (GoodsReceipt.line_items gr) inv_item);
      cbn; repeat split; try reflexivity; intros; discriminate.
Qed.

Lemma line_facts_cases (po : PurchaseOrder.t) (gr : GoodsReceipt.t)
  (inv_item : LineItem.t) (it : Iteration.t) (ds : list Division) :
  line_facts lower po gr inv_item it ds ->
  unmatched it = true
  \/ exists p g,
       Iteration.po_match it = Some p /\ Iteration.gr_match it = Some g
       /\ unmatched it = false.
Proof.
  intros _. unfold unmatched.
  destruct (Iteration.po_match it) as [p|]; [|now left].
  destruct (Iteration.gr_match it) as [g|]; [|now left].
  right. now exists p, g.
Qed.

Lemma line_facts_divisors (po : PurchaseOrder.t) (gr : GoodsReceipt.t)
  (inv_item : LineItem.t) (it : Iteration.t) (ds : list Division) :
  line_facts lower po gr inv_item it ds -> positive_divisors ds.
Proof.
  intros Hf. destruct (line_facts_cases _ _ _ _ _ Hf) as [Hu|(p & g & Hp & Hg & _)];
    destruct Hf as (_ & _ & Hno & Hyes).
  - destruct (Hno Hu) as (_ & _ & _ & _ & ->). constructor.
  - destruct (Hyes p g Hp Hg) as (_ & _ & _ & _ & ->).
    unfold positive_divisors. apply Forall_app. split.
    + destruct (0 <? LineItem.unit_price p)%float eqn:E; repeat constructor.
      exact E.
    + destruct (0 <? LineItem.quantity g)%float eqn:E; repeat constructor.
      exact E.
Qed.

Lemma line_iteration_inv (po : PurchaseOrder.t) (gr : GoodsReceipt.t)
  (inv_item : LineItem.t) (it : Iteration.t) :
  line_iteration lower po gr inv_item it ->
  exists ds, line_facts lower po gr inv_item it ds.
Proof.
  intros (os & os' & log & log' & Hrun).
  destruct (match_line_run po gr os inv_item log) as (it' & ds & Hrun' & Hf).
  rewrite Hrun' in Hrun. injection Hrun as -> _ _. now exists ds.
Qed.

(** ** The loop *)

Lemma loop_body_run (po : PurchaseOrder.t) (gr : GoodsReceipt.t)
  (st : Locals.t) (inv_item : LineItem.t) (log : list Division) :
  exists it ds,
    loop_body lower po gr st inv_item log
    = (Ok {| Locals.line_matches :=
               Locals.line_matches st ++ [line_record inv_item it];
             Locals.total_variance :=
               (Locals.total_variance st + Iteration.amount_diff it)%float;
             Locals.price_variance :=
               (Locals.price_variance st + Iteration.price_diff it)%float;
             Locals.quantity_variance :=
               (Locals.quantity_variance st + Iteration.qty_diff it)%float;
             Locals.overall_status :=
               escalation_step (Locals.overall_status st) it |},
       log ++ ds)
    /\ line_iteration lower po gr inv_item it
    /\ line_facts lower po gr inv_item it ds.
Proof.
  destruct (match_line_run po gr (Locals.overall_status st) inv_item log)
    as (it & ds & Hrun & Hf).
  exists it, ds. split; [|split; [|exact Hf]].
  - unfold loop_body, bind. rewrite Hrun. reflexivity.
  - now exists (Locals.overall_status st),
               (escalation_step (Locals.overall_status st) it), log, (log ++ ds).
Qed.

Lemma for_each_run (po : PurchaseOrder.t) (gr : GoodsReceipt.t)
  (lines : list LineItem.t) :
  forall (st : Locals.t) (log : list Division),
  exists its st' ds,
    for_each (loop_body lower po gr) lines st log = (Ok st', log ++ ds)
    /\ Forall2 (line_iteration lower po gr) lines its
    /\ positive_divisors ds
    /\ Locals.line_matches st'
       = Locals.line_matches st
         ++ map (fun x => line_record (fst x) (snd x)) (combine lines its)
    /\ Locals.total_variance st'
       = fold_left PrimFloat.add (map Iteration.amount_diff its)
           (Locals.total_variance st)
    /\ Locals.price_variance st'
       = fold_left PrimFloat.add (map Iteration.price_diff its)
           (Locals.price_variance st)
    /\ Locals.quantity_variance st'
       = fold_left PrimFloat.add (map Iteration.qty_diff its)
           (Locals.quantity_variance st)
    /\ Locals.overall_status st'
       = fold_left escalation_step its (Locals.overall_status st).
Proof.
  induction lines as [|inv_item rest IH]; intros st log.
  - exists [], st, []. cbn. unfold ret. rewrite !app_nil_r.
    repeat split; constructor.
  - destruct (loop_body_run po gr st inv_item log) as (it & ds1 & Hbody & Hit & Hf).
    match type of Hbody with _ = (Ok ?st1, _) =>
      destruct (IH st1 (log ++ ds1))
        as (its & st' & ds2 & Hrest & Hall & Hpos & Hm & Ht & Hp & Hq & Ho)
    end.
    exists (it :: its), st', (ds1 ++ ds2).
    cbn [for_each]. unfold bind. rewrite Hbody, Hrest, app_assoc.
    split; [reflexivity|]. split; [now constructor|].
    split; [apply Forall_app; split;
            [exact (line_facts_divisors _ _ _ _ _ Hf)|exact Hpos]|].
    cbn in *. rewrite <- app_assoc in Hm. repeat split; assumption.
Qed.

(** ** The whole function *)

Lemma perform_three_way_match_run (env : Env) (invoice : Invoice.t)
  (po : PurchaseOrder.t) (gr : GoodsReceipt.t) (log : list Division) :
  identified invoice po gr = true ->
  exists r its ds,
    perform_three_way_match lower env invoice po gr log = (Ok r, log ++ ds)
    /\ Forall2 (line_iteration lower po gr) (Invoice.line_items invoice) its
    /\ positive_divisors ds
    /\ VerificationResult.line_item_matches r
       = map (fun x => line_record (fst x) (snd x))
           (combine (Invoice.line_items invoice) its)
    /\ VerificationResult.total_variance r
       = running_sum (map Iteration.amount_diff its)
    /\ VerificationResult.price_variance r
       = running_sum (map Iteration.price_diff its)
    /\ VerificationResult.quantity_variance r
       = running_sum (map Iteration.qty_diff its)
    /\ VerificationResult.overall_status r
       = fold_left escalation_step its "pass".
Proof.
  intros Hid. unfold identified in Hid.
  destruct (for_each_run po gr (Invoice.line_items invoice) initial_locals log)
    as (its & st & ds & Hloop & Hall & Hpos & Hm & Ht & Hpv & Hq & Ho).
  destruct (Invoice.id invoice) as [iid|] eqn:Ei; [|discriminate].
  destruct (PurchaseOrder.id po) as [pid|] eqn:Ep; [|discriminate].
  destruct (GoodsReceipt.id gr) as [gid|] eqn:Eg; [|discriminate].
  eexists; exists its, ds.
  unfold perform_three_way_match, bind. rewrite Hloop, Ei, Ep, Eg. cbn.
  split; [reflexivity|]. cbn. repeat split; assumption.
Qed.

Lemma positive_divisors_nonzero (ds : list Division) :
  positive_divisors ds -> nonzero_divisors ds.
Proof.
  unfold positive_divisors, nonzero_divisors. intros H.
  eapply Forall_impl; [|exact H]. intros d. apply float_pos_nonzero.
Qed.

(** ** Escalation as a count of tripped checks *)

Lemma escalate_status_after (n : nat) :
  escalate (status_after n) = status_after (S n).
Proof. destruct n as [|[|n]]; reflexivity. Qed.

Lemma status_after_saturates (n : nat) : 2 <= n -> status_after n = "fail".
Proof. destruct n as [|[|n]]; [lia|lia|reflexivity]. Qed.

Lemma escalation_step_level (n : nat) (it : Iteration.t) :
  escalation_step (status_after n) it
  = status_after (if unmatched it then 2 else n + tripped_checks it).
Proof.
  unfold escalation_step, tripped_checks.
  destruct (unmatched it); [reflexivity|].
  destruct (trips_price it), (trips_quantity it);
    rewrite ?escalate_status_after; f_equal; lia.
Qed.

Lemma escalation_level (its : list Iteration.t) :
  forall n,
    fold_left escalation_step its (status_after n)
    = status_after (if existsb unmatched its then 2 + n
                    else n + list_sum (map tripped_checks its)).
Proof.
  induction its as [|it its IH]; intros n;
    cbn [fold_left existsb map list_sum fold_right].
  - f_equal. lia.
  - rewrite escalation_step_level, IH.
    destruct (unmatched it); cbn [orb].
    + destruct (existsb unmatched its);
        rewrite !status_after_saturates; (reflexivity || lia).
    + destruct (existsb unmatched its).
      * rewrite !status_after_saturates; (reflexivity || lia).
      * fold (list_sum (map tripped_checks its)). f_equal. lia.
Qed.

Lemma tripped_checks_variant (it : Iteration.t) :
  tripped_checks it
  = (if variant_line it then 1 else 0) + (if trips_both it then 1 else 0).
Proof.
  unfold tripped_checks, variant_line, trips_both.
  destruct (trips_price it), (trips_quantity it); reflexivity.
Qed.

Lemma tripped_checks_sum (its : list Iteration.t) :
  list_sum (map tripped_checks its)
  = List.length (filter variant_line its) + List.length (filter trips_both its).
Proof.
  induction its as [|it its IH]; [reflexivity|].
  cbn [map list_sum fold_right filter]. fold (list_sum (map tripped_checks its)).
  rewrite IH, tripped_checks_variant.
  destruct (variant_line it), (trips_both it); cbn [List.length]; lia.
Qed.

Lemma trips_both_le_variant (its : list Iteration.t) :
  List.length (filter trips_both its)
  <= List.length (filter variant_line its).
Proof.
  induction its as [|it its IH]; [reflexivity|]. cbn [filter].
  unfold trips_both at 1, variant_line at 1.
  destruct (trips_price it), (trips_quantity it); cbn [andb orb List.length];
    lia.
Qed.

Lemma filter_none {A : Type} (f : A -> bool) (l : list A) :
  existsb f l = false -> filter f l = [].
Proof.
  induction l as [|a l IH]; [reflexivity|]. cbn.
  destruct (f a); [discriminate|]. exact IH.
Qed.

Lemma filter_some {A : Type} (f : A -> bool) (l : list A) :
  existsb f l = true -> 1 <= List.length (filter f l).
Proof.
  induction l as [|a l IH]; [discriminate|]. cbn.
  destruct (f a); cbn; [lia|]. exact IH.
Qed.

(** ** First match *)

Lemma first_match_first (items : list LineItem.t) (inv_item : LineItem.t) :
  first_satisfying (same_description lower inv_item) items
    (first_match lower items inv_item).
Proof.
  induction items as [|x rest IH]; cbn.
  - intros b [].
  - destruct (String.eqb_spec (lower (LineItem.description x))
                (lower (LineItem.description inv_item))) as [Heq|Hne].
    + exists [], rest. repeat split; [exact Heq|]. intros b [].
    + destruct (first_match lower rest inv_item) as [a|]; cbn in *.
      * destruct IH as (before & after & -> & Ha & Hbefore).
        exists (x :: before), after. repeat split; [exact Ha|].
        intros b [<-|Hb]; [exact Hne|now apply Hbefore].
      * intros b [<-|Hb]; [exact Hne|now apply IH].
Qed.

Lemma first_match_skips (before after : list LineItem.t)
  (a inv_item : LineItem.t) :
  (forall b, In b before -> ~ same_description lower inv_item b) ->
  same_description lower inv_item a ->
  first_match lower (before ++ a :: after) inv_item = Some a.
Proof.
  intros Hbefore Ha. induction before as [|x before IH]; cbn.
  - unfold same_description in Ha. rewrite Ha, String.eqb_refl. reflexivity.
  - destruct (String.eqb_spec (lower (LineItem.description x))
                (lower (LineItem.description inv_item))) as [Heq|Hne].
    + exfalso. apply (Hbefore x); [now left|exact Heq].
    + apply IH. intros b Hb. apply Hbefore. now right.
Qed.

Lemma first_match_absent (items : list LineItem.t) (inv_item : LineItem.t) :
  (forall b, In b items -> ~ same_description lower inv_item b) ->
  first_match lower items inv_item = None.
Proof.
  intros Habs.
  pose proof (first_match_first items inv_item) as Hfirst.
  destruct (first_match lower items inv_item) as [a|]; [|reflexivity].
  destruct Hfirst as (before & after & -> & Ha & _).
  exfalso. apply (Habs a); [|exact Ha]. apply in_elt.
Qed.

Lemma Forall2_nth_error {A B : Type} (R : A -> B -> Prop) (l : list A)
  (l' : list B) :
  Forall2 R l l' ->
  forall i a, nth_error l i = Some a ->
    exists b, nth_error l' i = Some b /\ R a b
              /\ nth_error (combine l l') i = Some (a, b).
Proof.
  induction 1 as [|x y l l' Hxy _ IH]; intros [|i] a Hnth; cbn in *;
    try discriminate.
  - injection Hnth as <-. now exists y.
  - now apply IH.
Qed.

Lemma perform_three_way_match_outcome (env : Env) (invoice : Invoice.t)
  (po : PurchaseOrder.t) (gr : GoodsReceipt.t) (log : list Division) :
  exists o ds,
    perform_three_way_match lower env invoice po gr log = (o, log ++ ds)
    /\ positive_divisors ds
    /\ (o = Raise ValidationError \/ exists r, o = Ok r).
Proof.
  destruct (for_each_run po gr (Invoice.line_items invoice) initial_locals log)
    as (its & st & ds & Hloop & _ & Hpos & _).
  unfold perform_three_way_match, bind. rewrite Hloop.
  destruct (Invoice.id invoice), (PurchaseOrder.id po), (GoodsReceipt.id gr);
    cbn; eexists; exists ds; (split; [reflexivity|]); (split; [exact Hpos|]);
    solve [left; reflexivity | right; eexists; reflexivity].
Qed.

(** ** Properties of one invoice line *)

(** C3. On a line with both matches, a matched PO line priced 0 gives
    price_diff = 0 and a matched GR line of quantity 0 gives qty_diff = 0
    (either zero of the floats); every division the iteration evaluates has
    a non-zero divisor and the iteration returns.  Over a whole run, on any
    input, no division by zero is evaluated and [ZeroDivisionError] is never
    raised. *)
Theorem variance_never_divides_by_zero (env : Env) (invoice : Invoice.t)
  (po : PurchaseOrder.t) (gr : GoodsReceipt.t) (overall_status : string)
  (inv_item : LineItem.t) (log : list Division) :
  (exists it overall_status' ds,
     match_line lower po gr overall_status inv_item log
     = (Ok (it, overall_status'), log ++ ds)
     /\ nonzero_divisors ds
     /\ forall p g,
        Iteration.po_match it = Some p -> Iteration.gr_match it = Some g ->
        ((LineItem.unit_price p =? 0)%float = true ->
         Iteration.price_diff it = 0%float)
        /\ ((LineItem.quantity g =? 0)%float = true ->
            Iteration.qty_diff it = 0%float))
  /\ (exists o ds,
        perform_three_way_match lower env invoice po gr log = (o, log ++ ds)
        /\ nonzero_divisors ds
        /\ o <> Raise ZeroDivisionError).
Proof.
  split.
  - destruct (match_line_run po gr overall_status inv_item log)
      as (it & ds & Hrun & Hf).
    exists it, (escalation_step overall_status it), ds.
    split; [exact Hrun|]. split.
    + apply positive_divisors_nonzero. exact (line_facts_divisors _ _ _ _ _ Hf).
    + intros p g Hp Hg. destruct Hf as (_ & _ & _ & Hyes).
      destruct (Hyes p g Hp Hg) as (Hpd & Hqd & _). split; intros Hz.
      * rewrite Hpd, (float_zero_not_pos _ Hz). reflexivity.
      * rewrite Hqd, (float_zero_not_pos _ Hz). reflexivity.
  - destruct (perform_three_way_match_outcome env invoice po gr log)
      as (o & ds & Hrun & Hpos & Ho).
    exists o, ds. split; [exact Hrun|]. split.
    + now apply positive_divisors_nonzero.
    + destruct Ho as [->|(r & ->)]; discriminate.
Qed.

(** C4. For stored documents, take an invoice line, the first PO line and
    the first GR line of the same description (case-insensitively), and
    the two ratios price_diff = |invoice price - PO price| / PO price and
    qty_diff = |invoice quantity - GR quantity| / GR quantity, each 0 when
    its divisor is not positive.  The record of that line in the result has
    status "quantity_variance" whenever qty_diff > 0.05 (whatever
    price_diff is), "price_variance" when price_diff > 0.05 and
    qty_diff <= 0.05, and "pass" when neither exceeds 0.05. *)
Theorem line_status_by_variance (env : Env) (invoice : Invoice.t)
  (po : PurchaseOrder.t) (gr : GoodsReceipt.t) (log : list Division)
  (i : nat) (inv_item p g : LineItem.t) :
  identified invoice po gr = true ->
  nth_error (Invoice.line_items invoice) i = Some inv_item ->
  first_satisfying (same_description lower inv_item)
    (PurchaseOrder.line_items po) (Some p) ->
  first_satisfying (same_description lower inv_item)
    (GoodsReceipt.line_items gr) (Some g) ->
  let price_diff :=
    if (0 <? LineItem.unit_price p)%float
    then (abs (LineItem.unit_price inv_item - LineItem.unit_price p)
          / LineItem.unit_price p)%float
    else 0%float in
  let qty_diff :=
    if (0 <? LineItem.quantity g)%float
    then (abs (LineItem.quantity inv_item - LineItem.quantity g)
          / LineItem.quantity g)%float
    else 0%float in
  exists r ds record,
    perform_three_way_match lower env invoice po gr log = (Ok r, log ++ ds)
    /\ nth_error (VerificationResult.line_item_matches r) i = Some record
    /\ MatchRecord.description record = LineItem.description inv_item
    /\ ((0.05 <? qty_diff)%float = true ->
        MatchRecord.status record = "quantity_variance")
    /\ ((0.05 <? price_diff)%float = true ->
        (qty_diff <=? 0.05)%float = true ->
        MatchRecord.status record = "price_variance")
    /\ ((0.05 <? price_diff)%float = false ->
        (0.05 <? qty_diff)%float = false ->
        MatchRecord.status record = "pass").
Proof.
  intros Hid Hnth (bp & ap & Ep & Hp & Hbp) (bg & ag & Eg & Hg & Hbg)
    price_diff qty_diff.
  destruct (perform_three_way_match_run env invoice po gr log Hid)
    as (r & its & ds & Hrun & Hall & _ & Hrecords & _).
  destruct (Forall2_nth_error _ _ _ Hall i inv_item Hnth)
    as (it & _ & Hline & Hcombine).
  destruct (line_iteration_inv po gr inv_item it Hline)
    as (ds' & Hpo & Hgr & _ & Hyes).
  rewrite Ep, (first_match_skips _ _ _ _ Hbp Hp) in Hpo.
  rewrite Eg, (first_match_skips _ _ _ _ Hbg Hg) in Hgr.
  destruct (Hyes p g Hpo Hgr) as (Hpd & Hqd & _ & Hst & _).
  exists r, ds, (line_record inv_item it).
  split; [exact Hrun|]. split.
  { rewrite Hrecords.
    apply (map_nth_error (fun x => line_record (fst x) (snd x)) i _ Hcombine). }
  split; [reflexivity|].
  cbn [line_record MatchRecord.status]. rewrite Hst.
  unfold trips_quantity, trips_price. rewrite Hpd, Hqd.
  fold price_diff qty_diff. change tolerance with 0.05%float.
  repeat split.
  - intros ->. reflexivity.
  - intros -> Hle. rewrite (float_le_not_gt _ _ Hle). reflexivity.
  - intros -> ->. reflexivity.
Qed.

(** C5. The PO match of an invoice line is the first PO line item, in the
    stored order, whose lowercased description equals the invoice line's
    lowercased description, and [None] when there is none; the same for the
    GR match.  Lines of the same description that come after the first are
    never used. *)
Theorem first_match_semantics (po : PurchaseOrder.t) (gr : GoodsReceipt.t)
  (overall_status : string) (inv_item : LineItem.t) (log : list Division) :
  exists it overall_status' ds,
    match_line lower po gr overall_status inv_item log
    = (Ok (it, overall_status'), log ++ ds)
    /\ first_satisfying (same_description lower inv_item)
         (PurchaseOrder.line_items po) (Iteration.po_match it)
    /\ first_satisfying (same_description lower inv_item)
         (GoodsReceipt.line_items gr) (Iteration.gr_match it)
    /\ (forall before a after,
        PurchaseOrder.line_items po = before ++ a :: after ->
        (forall b, In b before -> ~ same_description lower inv_item b) ->
        same_description lower inv_item a ->
        Iteration.po_match it = Some a)
    /\ (forall before a after,
        GoodsReceipt.line_items gr = before ++ a :: after ->
        (forall b, In b before -> ~ same_description lower inv_item b) ->
        same_description lower inv_item a ->
        Iteration.gr_match it = Some a).
Proof.
  destruct (match_line_run po gr overall_status inv_item log)
    as (it & ds & Hrun & Hpo & Hgr & _).
  exists it, (escalation_step overall_status it), ds.
  split; [exact Hrun|]. rewrite Hpo, Hgr.
  split; [apply first_match_first|]. split; [apply first_match_first|].
  split; intros before a after -> Hbefore Ha; now apply first_match_skips.
Qed.

(** C6. For stored documents, the record of an invoice line whose first PO
    line and first GR line of the same description (case-insensitively)
    are [p] and [g] reports as amount variance the absolute difference
    |invoice amount - PO unit price x GR quantity|: a difference, not a
    ratio, taken against the PO price times the GR quantity. *)
Theorem amount_variance_formula (env : Env) (invoice : Invoice.t)
  (po : PurchaseOrder.t) (gr : GoodsReceipt.t) (log : list Division)
  (i : nat) (inv_item p g : LineItem.t) :
  identified invoice po gr = true ->
  nth_error (Invoice.line_items invoice) i = Some inv_item ->
  first_satisfying (same_description lower inv_item)
    (PurchaseOrder.line_items po) (Some p) ->
  first_satisfying (same_description lower inv_item)
    (GoodsReceipt.line_items gr) (Some g) ->
  exists r ds record,
    perform_three_way_match lower env invoice po gr log = (Ok r, log ++ ds)
    /\ nth_error (VerificationResult.line_item_matches r) i = Some record
    /\ MatchRecord.description record = LineItem.description inv_item
    /\ MatchRecord.amount_variance record
       = abs (LineItem.amount inv_item
              - LineItem.unit_price p * LineItem.quantity g)%float.
Proof.
  intros Hid Hnth (bp & ap & Ep & Hp & Hbp) (bg & ag & Eg & Hg & Hbg).
  destruct (perform_three_way_match_run env invoice po gr log Hid)
    as (r & its & ds & Hrun & Hall & _ & Hrecords & _).
  destruct (Forall2_nth_error _ _ _ Hall i inv_item Hnth)
    as (it & _ & Hline & Hcombine).
  destruct (line_iteration_inv po gr inv_item it Hline)
    as (ds' & Hpo & Hgr & _ & Hyes).
  rewrite Ep, (first_match_skips _ _ _ _ Hbp Hp) in Hpo.
  rewrite Eg, (first_match_skips _ _ _ _ Hbg Hg) in Hgr.
  destruct (Hyes p g Hpo Hgr) as (_ & _ & Ha & _).
  exists r, ds, (line_record inv_item it).
  split; [exact Hrun|]. split.
  { rewrite Hrecords.
    apply (map_nth_error (fun x => line_record (fst x) (snd x)) i _ Hcombine). }
  split; [reflexivity|].
  cbn [line_record MatchRecord.amount_variance]. exact Ha.
Qed.

(** C10. The guards test strict positivity: on a line with both matches, a
    matched PO unit price <= 0 (negative prices included) gives
    price_diff = 0 and the price expression evaluates no division, and a
    matched GR quantity <= 0 gives qty_diff = 0 with no division; every
    division the iteration does evaluate has a strictly positive divisor. *)
Theorem guards_test_strict_positivity (po : PurchaseOrder.t)
  (gr : GoodsReceipt.t) (overall_status : string) (inv_item : LineItem.t)
  (log : list Division) :
  exists it overall_status' ds,
    match_line lower po gr overall_status inv_item log
    = (Ok (it, overall_status'), log ++ ds)
    /\ positive_divisors ds
    /\ forall p g,
       Iteration.po_match it = Some p -> Iteration.gr_match it = Some g ->
       ((LineItem.unit_price p <=? 0)%float = true ->
        Iteration.price_diff it = 0%float
        /\ (forall log1, price_diff_expr inv_item p log1 = (Ok 0%float, log1))
        /\ forall d, In d ds -> snd d <> LineItem.unit_price p)
       /\ ((LineItem.quantity g <=? 0)%float = true ->
           Iteration.qty_diff it = 0%float
           /\ (forall log1, qty_diff_expr inv_item g log1 = (Ok 0%float, log1))
           /\ forall d, In d ds -> snd d <> LineItem.quantity g).
Proof.
  destruct (match_line_run po gr overall_status inv_item log)
    as (it & ds & Hrun & Hf).
  pose proof (line_facts_divisors _ _ _ _ _ Hf) as Hpos.
  exists it, (escalation_step overall_status it), ds.
  split; [exact Hrun|]. split; [exact Hpos|]. intros p g Hp Hg.
  destruct Hf as (_ & _ & _ & Hyes).
  destruct (Hyes p g Hp Hg) as (Hpd & Hqd & _).
  unfold positive_divisors in Hpos. rewrite Forall_forall in Hpos.
  split; intros Hle; pose proof (float_le_not_gt _ _ Hle) as Hnp.
  - rewrite Hpd, Hnp. split; [reflexivity|]. split.
    + intros log1. rewrite price_diff_expr_run, Hnp, app_nil_r. reflexivity.
    + intros d Hd Heq. specialize (Hpos d Hd). congruence.
  - rewrite Hqd, Hnp. split; [reflexivity|]. split.
    + intros log1. rewrite qty_diff_expr_run, Hnp, app_nil_r. reflexivity.
    + intros d Hd Heq. specialize (Hpos d Hd). congruence.
Qed.

(** ** Properties of the whole result *)

(** C1 (amended). The escalation counts tripped tolerance checks, and a line
    may trip two.  For stored documents the function returns, and: with no
    variant line and no no_match line the status is "pass"; with exactly one
    variant line that trips only one of the two tolerances, and no no_match
    line, the status is "warning"; with two or more variant lines, or with a
    line that trips both tolerances, the status is "fail". *)
Theorem escalation_rule (env : Env) (invoice : Invoice.t)
  (po : PurchaseOrder.t) (gr : GoodsReceipt.t) (log : list Division) :
  identified invoice po gr = true ->
  exists r its ds,
    perform_three_way_match lower env invoice po gr log = (Ok r, log ++ ds)
    /\ Forall2 (line_iteration lower po gr) (Invoice.line_items invoice) its
    /\ (existsb unmatched its = false ->
        List.length (filter variant_line its) = 0 ->
        VerificationResult.overall_status r = "pass")
    /\ (existsb unmatched its = false ->
        List.length (filter variant_line its) = 1 ->
        existsb trips_both its = false ->
        VerificationResult.overall_status r = "warning")
    /\ (2 <= List.length (filter variant_line its) ->
        VerificationResult.overall_status r = "fail")
    /\ (existsb trips_both its = true ->
        VerificationResult.overall_status r = "fail").
Proof.
  intros Hid.
  destruct (perform_three_way_match_run env invoice po gr log Hid)
    as (r & its & ds & Hrun & Hall & _ & _ & _ & _ & _ & Hstatus).
  exists r, its, ds. split; [exact Hrun|]. split; [exact Hall|].
  change "pass" with (status_after 0) in Hstatus.
  rewrite escalation_level, tripped_checks_sum in Hstatus. rewrite Hstatus.
  pose proof (trips_both_le_variant its) as Hle.
  repeat split.
  - intros -> Hnone.
    replace (List.length (filter trips_both its)) with 0 by lia.
    rewrite Hnone. reflexivity.
  - intros -> Hone Hnb. rewrite (filter_none _ _ Hnb), Hone. reflexivity.
  - intros Hge. destruct (existsb unmatched its);
      apply status_after_saturates; lia.
  - intros Hboth. apply filter_some in Hboth.
    destruct (existsb unmatched its); apply status_after_saturates; lia.
Qed.

(** C2. For stored documents, an invoice line whose description matches no
    PO line, or no GR line, case-insensitively gets a record of status
    "no_match" whose price_variance_pct, quantity_variance_pct and
    amount_variance are 0, and the overall status is "fail" whatever the
    other lines are. *)
Theorem no_match_forces_fail (env : Env) (invoice : Invoice.t)
  (po : PurchaseOrder.t) (gr : GoodsReceipt.t) (log : list Division)
  (i : nat) (inv_item : LineItem.t) :
  identified invoice po gr = true ->
  nth_error (Invoice.line_items invoice) i = Some inv_item ->
  (forall p, In p (PurchaseOrder.line_items po) ->
             ~ same_description lower inv_item p)
  \/ (forall g, In g (GoodsReceipt.line_items gr) ->
                ~ same_description lower inv_item g) ->
  exists r ds record,
    perform_three_way_match lower env invoice po gr log = (Ok r, log ++ ds)
    /\ nth_error (VerificationResult.line_item_matches r) i = Some record
    /\ MatchRecord.description record = LineItem.description inv_item
    /\ MatchRecord.status record = "no_match"
    /\ MatchRecord.price_variance_pct record = 0%float
    /\ MatchRecord.quantity_variance_pct record = 0%float
    /\ MatchRecord.amount_variance record = 0%float
    /\ VerificationResult.overall_status r = "fail".
Proof.
  intros Hid Hnth Habsent.
  destruct (perform_three_way_match_run env invoice po gr log Hid)
    as (r & its & ds & Hrun & Hall & _ & Hrecords & _ & _ & _ & Hstatus).
  destruct (Forall2_nth_error _ _ _ Hall i inv_item Hnth)
    as (it & Hit & Hline & Hcombine).
  destruct (line_iteration_inv po gr inv_item it Hline)
    as (ds' & Hpo & Hgr & Hno & _).
  assert (Hun : unmatched it = true).
  { unfold unmatched. rewrite Hpo, Hgr.
    destruct Habsent as [Hp|Hg].
    - now rewrite (first_match_absent _ _ Hp).
    - rewrite (first_match_absent _ _ Hg).
      now destruct (first_match lower (PurchaseOrder.line_items po) inv_item). }
  destruct (Hno Hun) as (Hpd & Hqd & Had & Hst & _).
  exists r, ds, (line_record inv_item it).
  split; [exact Hrun|]. split.
  { rewrite Hrecords.
    apply (map_nth_error (fun x => line_record (fst x) (snd x)) i _ Hcombine). }
  cbn [line_record MatchRecord.description MatchRecord.status
       MatchRecord.price_variance_pct MatchRecord.quantity_variance_pct
       MatchRecord.amount_variance].
  rewrite Hpd, Hqd, Had, Hst. repeat split.
  rewrite Hstatus. change "pass" with (status_after 0).
  rewrite escalation_level.
  assert (Hex : existsb unmatched its = true).
  { apply existsb_exists. exists it. split; [|exact Hun].
    eapply nth_error_In. exact Hit. }
  rewrite Hex. reflexivity.
Qed.

(** C7. For stored documents, total_variance, price_variance and
    quantity_variance are the plain running sums of the lines' amount_diff,
    price_diff and qty_diff, in invoice order; a no_match line adds 0 to
    each. *)
Theorem aggregates_are_running_sums (env : Env) (invoice : Invoice.t)
  (po : PurchaseOrder.t) (gr : GoodsReceipt.t) (log : list Division) :
  identified invoice po gr = true ->
  exists r its ds,
    perform_three_way_match lower env invoice po gr log = (Ok r, log ++ ds)
    /\ Forall2 (line_iteration lower po gr) (Invoice.line_items invoice) its
    /\ VerificationResult.total_variance r
       = running_sum (map Iteration.amount_diff its)
    /\ VerificationResult.price_variance r
       = running_sum (map Iteration.price_diff its)
    /\ VerificationResult.quantity_variance r
       = running_sum (map Iteration.qty_diff its)
    /\ forall it, In it its -> unmatched it = true ->
       Iteration.amount_diff it = 0%float
       /\ Iteration.price_diff it = 0%float
       /\ Iteration.qty_diff it = 0%float.
Proof.
  intros Hid.
  destruct (perform_three_way_match_run env invoice po gr log Hid)
    as (r & its & ds & Hrun & Hall & _ & _ & Ht & Hp & Hq & _).
  exists r, its, ds. repeat (split; [assumption|]).
  intros it Hin Hun.
  apply In_nth_error in Hin. destruct Hin as (i & Hi).
  apply Forall2_flip in Hall.
  destruct (Forall2_nth_error _ _ _ Hall i it Hi) as (inv_item & _ & Hline & _).
  destruct (line_iteration_inv po gr inv_item it Hline) as (ds' & _ & _ & Hno & _).
  destruct (Hno Hun) as (Hpd & Hqd & Had & _). now repeat split.
Qed.

(** C8. For stored documents the overall status is one of "pass",
    "warning", "fail", and line_item_matches holds one record per invoice
    line, in invoice order: the i-th record is the one built from the i-th
    invoice line and carries its description. *)
Theorem result_shape (env : Env) (invoice : Invoice.t)
  (po : PurchaseOrder.t) (gr : GoodsReceipt.t) (log : list Division) :
  identified invoice po gr = true ->
  exists r its ds,
    perform_three_way_match lower env invoice po gr log = (Ok r, log ++ ds)
    /\ (VerificationResult.overall_status r = "pass"
        \/ VerificationResult.overall_status r = "warning"
        \/ VerificationResult.overall_status r = "fail")
    /\ List.length (VerificationResult.line_item_matches r)
       = List.length (Invoice.line_items invoice)
    /\ map MatchRecord.description (VerificationResult.line_item_matches r)
       = map LineItem.description (Invoice.line_items invoice)
    /\ Forall2 (line_iteration lower po gr) (Invoice.line_items invoice) its
    /\ (forall i inv_item,
        nth_error (Invoice.line_items invoice) i = Some inv_item ->
        exists it,
          nth_error its i = Some it
          /\ nth_error (VerificationResult.line_item_matches r) i
             = Some (line_record inv_item it)).
Proof.
  intros Hid.
  destruct (perform_three_way_match_run env invoice po gr log Hid)
    as (r & its & ds & Hrun & Hall & _ & Hrecords & _ & _ & _ & Hstatus).
  exists r, its, ds. split; [exact Hrun|]. split.
  { rewrite Hstatus. change "pass" with (status_after 0).
    rewrite escalation_level.
    destruct (if existsb unmatched its then _ else _) as [|[|n]]; cbn; auto. }
  assert (Hnth : forall i inv_item,
             nth_error (Invoice.line_items invoice) i = Some inv_item ->
             exists it,
               nth_error its i = Some it
               /\ nth_error (VerificationResult.line_item_matches r) i
                  = Some (line_record inv_item it)).
  { intros i inv_item Hi.
    destruct (Forall2_nth_error _ _ _ Hall i inv_item Hi)
      as (it & Hit & _ & Hcombine).
    exists it. split; [exact Hit|]. rewrite Hrecords.
    apply (map_nth_error (fun x => line_record (fst x) (snd x)) i _ Hcombine). }
  assert (Hdesc : map MatchRecord.description
                    (VerificationResult.line_item_matches r)
                  = map LineItem.description (Invoice.line_items invoice)).
  { rewrite Hrecords. clear - Hall.
    induction Hall as [|x y l l' _ _ IH]; [reflexivity|].
    cbn. now rewrite IH. }
  split; [|split; [exact Hdesc|split; [exact Hall|exact Hnth]]].
  rewrite <- (length_map MatchRecord.description), Hdesc.
  apply length_map.
Qed.

(** C9. For stored documents, an invoice without line items gives overall
    status "pass", no match record and three aggregates equal to 0; no
    division is evaluated. *)
Theorem empty_invoice_passes (env : Env) (invoice : Invoice.t)
  (po : PurchaseOrder.t) (gr : GoodsReceipt.t) (log : list Division) :
  identified invoice po gr = true ->
  Invoice.line_items invoice = [] ->
  exists r,
    perform_three_way_match lower env invoice po gr log = (Ok r, log)
    /\ VerificationResult.overall_status r = "pass"
    /\ VerificationResult.line_item_matches r = []
    /\ VerificationResult.total_variance r = 0%float
    /\ VerificationResult.price_variance r = 0%float
    /\ VerificationResult.quantity_variance r = 0%float.
Proof.
  intros Hid Hempty. unfold identified in Hid.
  unfold perform_three_way_match, bind. rewrite Hempty. cbn.
  destruct (Invoice.id invoice) as [iid|]; [|discriminate].
  destruct (PurchaseOrder.id po) as [pid|]; [|discriminate].
  destruct (GoodsReceipt.id gr) as [gid|]; [|discriminate].
  cbn. eexists. split; [reflexivity|]. cbn. repeat split.
Qed.

End Facts.

(** ** The properties on concrete documents *)

(** Scenario A of the specification: price within tolerance, quantity
    short by a ninth; one check tripped. *)
Example scenario_A :
  fst (perform_three_way_match ascii_lower sample_env
         laptops_invoice laptops_po laptops_gr [])
  = Ok {| VerificationResult.id := Some (uuid4 sample_env);
          VerificationResult.invoice_id := "inv-1";
          VerificationResult.po_id := "po-1";
          VerificationResult.gr_id := "gr-1";
          VerificationResult.verification_date :=
            now_verification_date sample_env;
          VerificationResult.overall_status := "warning";
          VerificationResult.line_item_matches :=
            [ {| MatchRecord.description := "Laptops";
                 MatchRecord.invoice_qty := 10;
                 MatchRecord.invoice_price := 1000;
                 MatchRecord.invoice_amount := 10000;
                 MatchRecord.po_qty := 10;
                 MatchRecord.po_price := 1050;
                 MatchRecord.gr_qty := 9;
                 MatchRecord.price_variance_pct := 4.761904761904762;
                 MatchRecord.quantity_variance_pct := 11.11111111111111;
                 MatchRecord.amount_variance := 550;
                 MatchRecord.status := "quantity_variance" |} ];
          VerificationResult.total_variance := 550;
          VerificationResult.price_variance := 0.047619047619047616;
          VerificationResult.quantity_variance := 0.1111111111111111;
          VerificationResult.created_at := Some (now_created_at sample_env) |}.
Proof. vm_compute. reflexivity. Qed.

(** Scenario B of the specification: two variant lines. *)
Example scenario_B :
  exists r ds,
    perform_three_way_match ascii_lower sample_env mice_invoice mice_po mice_gr []
    = (Ok r, ds)
    /\ map MatchRecord.status (VerificationResult.line_item_matches r)
       = ["quantity_variance"; "price_variance"]
    /\ VerificationResult.overall_status r = "fail".
Proof.
  eexists. eexists. split; [vm_compute; reflexivity|]. split; reflexivity.
Qed.

(** A negative PO price is not divided by: only the quantity ratio is
    computed. *)
Example negative_price_is_guarded :
  match_line ascii_lower credit_po doubled_gr "pass" (item "Desks" 10 100 1000) []
  = (Ok ({| Iteration.po_match := Some (item "Desks" 10 (-5) (-50));
            Iteration.gr_match := Some (item "Desks" 10 100 1000);
            Iteration.price_diff := 0;
            Iteration.qty_diff := 0;
            Iteration.amount_diff := 1050;
            Iteration.match_status := "pass" |}, "pass"),
     [(0, 10)]%float).
Proof. vm_compute. reflexivity. Qed.

(** A document without identifier is refused when the result is built. *)
Example unidentified_invoice_is_refused :
  fst (perform_three_way_match ascii_lower sample_env
         {| Invoice.id := None;
            Invoice.invoice_number := "INV-002";
            Invoice.vendor_name := "Tech Supplies";
            Invoice.invoice_date := "2025-01-15";
            Invoice.total_amount := 0%float;
            Invoice.line_items := [];
            Invoice.status := Some "pending";
            Invoice.created_at := None |}
         laptops_po laptops_gr [])
  = Raise ValidationError.
Proof. reflexivity. Qed.

(** C1, as stated, fails: a single variant line that trips both tolerances
    (billed at twice the ordered price and twice the received quantity),
    with no no_match line, gives "fail" and not "warning". *)
Lemma one_variant_line_can_fail :
  exists r its ds,
    perform_three_way_match ascii_lower sample_env
      doubled_invoice doubled_po doubled_gr [] = (Ok r, ds)
    /\ Forall2 (line_iteration ascii_lower doubled_po doubled_gr)
         (Invoice.line_items doubled_invoice) its
    /\ existsb unmatched its = false
    /\ List.length (filter variant_line its) = 1
    /\ VerificationResult.overall_status r = "fail"
    /\ VerificationResult.overall_status r <> "warning".
Proof.
  eexists.
  exists [ {| Iteration.po_match := Some (item "Desks" 10 100 1000);
              Iteration.gr_match := Some (item "Desks" 10 100 1000);
              Iteration.price_diff := 1;
              Iteration.qty_diff := 1;
              Iteration.amount_diff := 3000;
              Iteration.match_status := "quantity_variance" |} ].
  eexists. split; [vm_compute; reflexivity|]. split.
  - constructor; [|constructor].
    exists "pass", "fail", [], [(100, 100); (10, 10)]%float.
    vm_compute. reflexivity.
  - repeat split; try reflexivity. cbn. discriminate.
Qed.

Lemma escalation_rule_witness :
  identified laptops_invoice laptops_po laptops_gr = true
  /\ exists r its ds,
       perform_three_way_match ascii_lower sample_env
         laptops_invoice laptops_po laptops_gr [] = (Ok r, [] ++ ds)
       /\ Forall2 (line_iteration ascii_lower laptops_po laptops_gr)
            (Invoice.line_items laptops_invoice) its
       /\ (existsb unmatched its = false ->
           List.length (filter variant_line its) = 0 ->
           VerificationResult.overall_status r = "pass")
       /\ (existsb unmatched its = false ->
           List.length (filter variant_line its) = 1 ->
           existsb trips_both its = false ->
           VerificationResult.overall_status r = "warning")
       /\ (2 <= List.length (filter variant_line its) ->
           VerificationResult.overall_status r = "fail")
       /\ (existsb trips_both its = true ->
           VerificationResult.overall_status r = "fail").
Proof.
  split.
  - reflexivity.
  - apply (escalation_rule ascii_lower sample_env
             laptops_invoice laptops_po laptops_gr []).
    reflexivity.
Defined.

Lemma no_match_forces_fail_witness :
  identified (invoice_of [item "Laptops" 10 1000 10000; monitors])
    laptops_po laptops_gr = true
  /\ nth_error
       (Invoice.line_items (invoice_of [item "Laptops" 10 1000 10000; monitors]))
       1 = Some monitors
  /\ ((forall p, In p (PurchaseOrder.line_items laptops_po) ->
                 ~ same_description ascii_lower monitors p)
      \/ (forall g, In g (GoodsReceipt.line_items laptops_gr) ->
                    ~ same_description ascii_lower monitors g))
  /\ exists r ds record,
       perform_three_way_match ascii_lower sample_env
         (invoice_of [item "Laptops" 10 1000 10000; monitors])
         laptops_po laptops_gr [] = (Ok r, [] ++ ds)
       /\ nth_error (VerificationResult.line_item_matches r) 1 = Some record
       /\ MatchRecord.description record = LineItem.description monitors
       /\ MatchRecord.status record = "no_match"
       /\ MatchRecord.price_variance_pct record = 0%float
       /\ MatchRecord.quantity_variance_pct record = 0%float
       /\ MatchRecord.amount_variance record = 0%float
       /\ VerificationResult.overall_status r = "fail".
Proof.
  assert (Habsent : forall p, In p (PurchaseOrder.line_items laptops_po) ->
                              ~ same_description ascii_lower monitors p).
  { intros p [<-|[]]. unfold same_description. cbn. discriminate. }
  split; [reflexivity|]. split; [reflexivity|].
  split; [left; exact Habsent|].
  apply (no_match_forces_fail ascii_lower sample_env
           (invoice_of [item "Laptops" 10 1000 10000; monitors])
           laptops_po laptops_gr [] 1 monitors).
  - reflexivity.
  - reflexivity.
  - left. exact Habsent.
Defined.

Lemma aggregates_are_running_sums_witness :
  identified laptops_invoice laptops_po laptops_gr = true
  /\ exists r its ds,
       perform_three_way_match ascii_lower sample_env
         laptops_invoice laptops_po laptops_gr [] = (Ok r, [] ++ ds)
       /\ Forall2 (line_iteration ascii_lower laptops_po laptops_gr)
            (Invoice.line_items laptops_invoice) its
       /\ VerificationResult.total_variance r
          = running_sum (map Iteration.amount_diff its)
       /\ VerificationResult.price_variance r
          = running_sum (map Iteration.price_diff its)
       /\ VerificationResult.quantity_variance r
          = running_sum (map Iteration.qty_diff its)
       /\ forall it, In it its -> unmatched it = true ->
          Iteration.amount_diff it = 0%float
          /\ Iteration.price_diff it = 0%float
          /\ Iteration.qty_diff it = 0%float.
Proof.
  split.
  - reflexivity.
  - apply (aggregates_are_running_sums ascii_lower sample_env
             laptops_invoice laptops_po laptops_gr []).
    reflexivity.
Defined.

Lemma result_shape_witness :
  identified laptops_invoice laptops_po laptops_gr = true
  /\ exists r its ds,
       perform_three_way_match ascii_lower sample_env
         laptops_invoice laptops_po laptops_gr [] = (Ok r, [] ++ ds)
       /\ (VerificationResult.overall_status r = "pass"
           \/ VerificationResult.overall_status r = "warning"
           \/ VerificationResult.overall_status r = "fail")
       /\ List.length (VerificationResult.line_item_matches r)
          = List.length (Invoice.line_items laptops_invoice)
       /\ map MatchRecord.description (VerificationResult.line_item_matches r)
          = map LineItem.description (Invoice.line_items laptops_invoice)
       /\ Forall2 (line_iteration ascii_lower laptops_po laptops_gr)
            (Invoice.line_items laptops_invoice) its
       /\ (forall i inv_item,
           nth_error (Invoice.line_items laptops_invoice) i = Some inv_item ->
           exists it,
             nth_error its i = Some it
             /\ nth_error (VerificationResult.line_item_matches r) i
                = Some (line_record inv_item it)).
Proof.
  split.
  - reflexivity.
  - apply (result_shape ascii_lower sample_env
             laptops_invoice laptops_po laptops_gr []).
    reflexivity.
Defined.

Lemma empty_invoice_passes_witness :
  identified (invoice_of []) laptops_po laptops_gr = true
  /\ Invoice.line_items (invoice_of []) = []
  /\ exists r,
       perform_three_way_match ascii_lower sample_env
         (invoice_of []) laptops_po laptops_gr [] = (Ok r, [])
       /\ VerificationResult.overall_status r = "pass"
       /\ VerificationResult.line_item_matches r = []
       /\ VerificationResult.total_variance r = 0%float
       /\ VerificationResult.price_variance r = 0%float
       /\ VerificationResult.quantity_variance r = 0%float.
Proof.
  split; [reflexivity|]. split; [reflexivity|].
  apply (empty_invoice_passes ascii_lower sample_env
           (invoice_of []) laptops_po laptops_gr []).
  - reflexivity.
  - reflexivity.
Defined.

(** ** Further properties of the matching algorithm *)

Section MoreFacts.

Variable lower : string -> string.

Lemma line_facts_functional (po : PurchaseOrder.t) (gr : GoodsReceipt.t)
  (inv_item : LineItem.t) (it it' : Iteration.t) (ds ds' : list Division) :
  line_facts lower po gr inv_item it ds ->
  line_facts lower po gr inv_item it' ds' ->
  it = it'.
Proof.
  intros (Hpo & Hgr & Hno & Hyes) (Hpo' & Hgr' & Hno' & Hyes').
  destruct it as [pm gm pd qd ad ms], it' as [pm' gm' pd' qd' ad' ms'].
  cbn [Iteration.po_match Iteration.gr_match] in Hpo, Hgr, Hpo', Hgr'.
  assert (Epm : pm' = pm) by congruence.
  assert (Egm : gm' = gm) by congruence.
  clear Hpo Hgr Hpo' Hgr'. subst pm' gm'.
  destruct pm as [p|]; [destruct gm as [g|]|].
  - destruct (Hyes p g eq_refl eq_refl) as (H1 & H2 & H3 & H4 & _).
    destruct (Hyes' p g eq_refl eq_refl) as (H1' & H2' & H3' & H4' & _).
    cbn [Iteration.price_diff Iteration.qty_diff Iteration.amount_diff
         Iteration.match_status] in *.
    unfold trips_quantity, trips_price in H4, H4'.
    cbn [Iteration.price_diff Iteration.qty_diff] in H4, H4'.
    rewrite H4, H4', H3, H3', H1, H1', H2, H2'. reflexivity.
  - destruct (Hno eq_refl) as (H1 & H2 & H3 & H4 & _).
    destruct (Hno' eq_refl) as (H1' & H2' & H3' & H4' & _).
    cbn in *. congruence.
  - assert (Hu : forall a b c d, unmatched (Iteration.mk None gm a b c d) = true)
      by reflexivity.
    destruct (Hno (Hu _ _ _ _)) as (H1 & H2 & H3 & H4 & _).
    destruct (Hno' (Hu _ _ _ _)) as (H1' & H2' & H3' & H4' & _).
    cbn in *. congruence.
Qed.

Lemma iteration_of_facts (po : PurchaseOrder.t) (gr : GoodsReceipt.t)
  (inv_item : LineItem.t) :
  exists ds,
    line_facts lower po gr inv_item (iteration_of lower po gr inv_item) ds.
Proof.
  destruct (match_line_run lower po gr "pass" inv_item [])
    as (it & ds & Hrun & Hf).
  exists ds. unfold iteration_of. rewrite Hrun. exact Hf.
Qed.

Lemma line_iteration_is_iteration_of (po : PurchaseOrder.t)
  (gr : GoodsReceipt.t) (inv_item : LineItem.t) (it : Iteration.t) :
  line_iteration lower po gr inv_item it ->
  it = iteration_of lower po gr inv_item.
Proof.
  intros Hline.
  destruct (line_iteration_inv lower po gr inv_item it Hline) as (ds & Hf).
  destruct (iteration_of_facts po gr inv_item) as (ds' & Hf').
  exact (line_facts_functional _ _ _ _ _ _ _ Hf Hf').
Qed.

Lemma iterations_are_map (po : PurchaseOrder.t) (gr : GoodsReceipt.t)
  (lines : list LineItem.t) (its : list Iteration.t) :
  Forall2 (line_iteration lower po gr) lines its ->
  its = map (iteration_of lower po gr) lines
  /\ combine lines its
     = map (fun inv_item => (inv_item, iteration_of lower po gr inv_item)) lines.
Proof.
  induction 1 as [|x y l l' Hxy _ (IH1 & IH2)]; [now split|].
  apply line_iteration_is_iteration_of in Hxy. subst y. cbn.
  now rewrite <- IH1, IH2.
Qed.

(** The run of the whole function, with the per-line variables written as
    a function of the invoice line. *)
Lemma perform_three_way_match_by_line (env : Env) (invoice : Invoice.t)
  (po : PurchaseOrder.t) (gr : GoodsReceipt.t) (log : list Division) :
  identified invoice po gr = true ->
  exists r ds,
    perform_three_way_match lower env invoice po gr log = (Ok r, log ++ ds)
    /\ VerificationResult.line_item_matches r
       = map (fun inv_item =>
                line_record inv_item (iteration_of lower po gr inv_item))
           (Invoice.line_items invoice)
    /\ VerificationResult.total_variance r
       = running_sum
           (map Iteration.amount_diff
              (map (iteration_of lower po gr) (Invoice.line_items invoice)))
    /\ VerificationResult.overall_status r
       = status_after
           (if existsb unmatched
                 (map (iteration_of lower po gr) (Invoice.line_items invoice))
            then 2
            else list_sum
                   (map tripped_checks
                      (map (iteration_of lower po gr)
                         (Invoice.line_items invoice)))).
Proof.
  intros Hid.
  destruct (perform_three_way_match_run lower env invoice po gr log Hid)
    as (r & its & ds & Hrun & Hall & _ & Hrecords & Ht & _ & _ & Hstatus).
  destruct (iterations_are_map po gr _ _ Hall) as (Hits & Hcombine).
  exists r, ds. split; [exact Hrun|].
  rewrite Hcombine, map_map in Hrecords. cbn [fst snd] in Hrecords.
  rewrite Hits in Ht, Hstatus.
  change "pass" with (status_after 0) in Hstatus.
  rewrite escalation_level in Hstatus. cbn [Nat.add] in Hstatus.
  now repeat split.
Qed.

(** The status of a line's record, by cases on its variables. *)
Lemma match_status_cases (po : PurchaseOrder.t) (gr : GoodsReceipt.t)
  (inv_item : LineItem.t) :
  let it := iteration_of lower po gr inv_item in
  (unmatched it = true /\ Iteration.match_status it = "no_match"
   /\ Iteration.amount_diff it = 0%float)
  \/ (unmatched it = false
      /\ Iteration.match_status it
         = (if trips_quantity it then "quantity_variance"
            else if trips_price it then "price_variance" else "pass")
      /\ exists p g,
           Iteration.po_match it = Some p /\ Iteration.gr_match it = Some g
           /\ Iteration.amount_diff it
              = abs (LineItem.amount inv_item
                     - LineItem.unit_price p * LineItem.quantity g)%float).
Proof.
  intros it. destruct (iteration_of_facts po gr inv_item) as (ds & Hf).
  fold it in Hf.
  destruct (line_facts_cases lower _ _ _ _ _ Hf) as [Hu|(p & g & Hp & Hg & Hu)];
    destruct Hf as (_ & _ & Hno & Hyes).
  - left. destruct (Hno Hu) as (_ & _ & Ha & Hs & _). now repeat split.
  - right. destruct (Hyes p g Hp Hg) as (_ & _ & Ha & Hs & _).
    split; [exact Hu|]. split; [exact Hs|]. now exists p, g.
Qed.

(** *** Floats: absolute values and NaN *)

Lemma float_abs_not_negative (x : float) : (abs x <? 0)%float = false.
Proof.
  rewrite ltb_spec, abs_spec.
  change (Prim2SF 0) with (S754_zero false).
  destruct (Prim2SF x) as [[]|[]| |[] m e]; reflexivity.
Qed.

Lemma SFcompare_refl (a : spec_float) :
  a <> S754_nan -> SFcompare a a = Some Eq.
Proof.
  intros Hnan. destruct a as [[]|[]| |[] m e]; cbn; try reflexivity;
    try congruence;
    rewrite Z.compare_refl;
    change (Pos.compare_cont Eq m m) with (m ?= m)%positive;
    rewrite Pos.compare_refl; reflexivity.
Qed.

Lemma float_is_nan (x : float) : is_nan x = true -> Prim2SF x = S754_nan.
Proof.
  unfold is_nan. rewrite eqb_spec. unfold SFeqb. intros H.
  destruct (Prim2SF x) as [s|s| |s m e] eqn:E; [| |reflexivity|];
    rewrite SFcompare_refl in H by discriminate; discriminate.
Qed.

Lemma float_nan_not_gt (x y : float) :
  Prim2SF x = S754_nan -> (y <? x)%float = false /\ (x <? y)%float = false.
Proof.
  intros Hx. rewrite !ltb_spec, Hx. unfold SFltb.
  destruct (Prim2SF y) as [s|s| |s m e]; split; reflexivity.
Qed.

Lemma float_ratio_of_nan (x y : float) :
  Prim2SF x = S754_nan -> Prim2SF (abs (x - y) / y) = S754_nan.
Proof.
  intros Hx.
  rewrite div_spec, abs_spec, sub_spec, Hx.
  destruct (Prim2SF y) as [s|s| |s m e]; reflexivity.
Qed.

(** *** Status values *)

Lemma status_after_pass (n : nat) : status_after n = "pass" <-> n = 0.
Proof. destruct n as [|[|n]]; cbn; split; (discriminate || reflexivity || lia). Qed.

Lemma status_after_warning (n : nat) : status_after n = "warning" <-> n = 1.
Proof. destruct n as [|[|n]]; cbn; split; (discriminate || reflexivity || lia). Qed.

Lemma status_after_fail (n : nat) : status_after n = "fail" <-> 2 <= n.
Proof. destruct n as [|[|n]]; cbn; split; (discriminate || reflexivity || lia). Qed.

Lemma record_status_pass (po : PurchaseOrder.t) (gr : GoodsReceipt.t)
  (inv_item : LineItem.t) :
  let it := iteration_of lower po gr inv_item in
  Iteration.match_status it = "pass"
  <-> unmatched it = false /\ tripped_checks it = 0.
Proof.
  intros it.
  destruct (match_status_cases po gr inv_item) as [(Hu & Hs & _)|(Hu & Hs & _)];
    fold it in Hu, Hs; rewrite Hs, Hu; unfold tripped_checks.
  - split; [discriminate|intros (H & _); discriminate].
  - destruct (trips_quantity it), (trips_price it); cbn;
      split; try discriminate; try (intros (_ & H); discriminate); auto.
Qed.

Lemma record_flagged (po : PurchaseOrder.t) (gr : GoodsReceipt.t)
  (inv_item : LineItem.t) :
  let it := iteration_of lower po gr inv_item in
  flagged (line_record inv_item it) = unmatched it || variant_line it.
Proof.
  intros it. unfold flagged. cbn [line_record MatchRecord.status].
  destruct (match_status_cases po gr inv_item) as [(Hu & Hs & _)|(Hu & Hs & _)];
    fold it in Hu, Hs; rewrite Hs, Hu; unfold variant_line.
  - reflexivity.
  - destruct (trips_quantity it), (trips_price it); reflexivity.
Qed.

Lemma all_quiet (its : list Iteration.t) :
  (if existsb unmatched its then 2 else list_sum (map tripped_checks its)) = 0
  <-> Forall (fun it => unmatched it = false /\ tripped_checks it = 0) its.
Proof.
  induction its as [|it its IH]; cbn [existsb map list_sum fold_right].
  - split; [constructor|reflexivity].
  - fold (list_sum (map tripped_checks its)).
    destruct (unmatched it) eqn:Hu; cbn [orb].
    + split; [discriminate|]. intros H. inversion H as [|? ? (Hf & _) _].
      congruence.
    + split.
      * intros H. constructor.
        -- split; [exact Hu|]. destruct (existsb unmatched its); lia.
        -- apply IH. destruct (existsb unmatched its); lia.
      * intros H. inversion H as [|? ? (_ & Ht) Hrest]. subst.
        apply IH in Hrest. destruct (existsb unmatched its); lia.
Qed.

Lemma flagged_count (po : PurchaseOrder.t) (gr : GoodsReceipt.t)
  (lines : list LineItem.t) :
  existsb unmatched (map (iteration_of lower po gr) lines) = false ->
  List.length
    (filter flagged
       (map (fun inv_item =>
               line_record inv_item (iteration_of lower po gr inv_item)) lines))
  = List.length (filter variant_line (map (iteration_of lower po gr) lines)).
Proof.
  induction lines as [|x l IH]; [reflexivity|]. cbn [map existsb filter].
  intros H. apply orb_false_elim in H. destruct H as (Hu & Hrest).
  rewrite (record_flagged po gr x), Hu. cbn [orb].
  destruct (variant_line (iteration_of lower po gr x)); cbn [List.length];
    rewrite (IH Hrest); reflexivity.
Qed.

Lemma existsb_permutation {A : Type} (f : A -> bool) (l l' : list A) :
  Permutation l l' -> existsb f l = existsb f l'.
Proof.
  induction 1 as [|x l l' _ IH|x y l|l l' l'' _ IH1 _ IH2]; cbn.
  - reflexivity.
  - now rewrite IH.
  - destruct (f x), (f y); reflexivity.
  - now rewrite IH1.
Qed.

Lemma list_sum_permutation (l l' : list nat) :
  Permutation l l' -> list_sum l = list_sum l'.
Proof.
  induction 1 as [|x l l' _ IH|x y l|l l' l'' _ IH1 _ IH2]; cbn.
  - reflexivity.
  - fold (list_sum l). fold (list_sum l'). lia.
  - fold (list_sum l). lia.
  - lia.
Qed.

(** *** Results *)

(** X1. The function raises [ValidationError] exactly when one of the three
    documents has no identifier, and returns a result exactly when all
    three have one; the loop over the invoice lines has run in both cases. *)
Theorem missing_identifier_is_refused (env : Env) (invoice : Invoice.t)
  (po : PurchaseOrder.t) (gr : GoodsReceipt.t) (log : list Division) :
  (fst (perform_three_way_match lower env invoice po gr log)
   = Raise ValidationError
   <-> identified invoice po gr = false)
  /\ ((exists r,
         fst (perform_three_way_match lower env invoice po gr log) = Ok r)
      <-> identified invoice po gr = true).
Proof.
  destruct (for_each_run lower po gr (Invoice.line_items invoice)
              initial_locals log) as (its & st & ds & Hloop & _).
  unfold perform_three_way_match, bind, identified. rewrite Hloop.
  destruct (Invoice.id invoice), (PurchaseOrder.id po), (GoodsReceipt.id gr);
    cbn; (split; split); try discriminate; try reflexivity;
    try (intros (r & H); discriminate); intros _; eexists; reflexivity.
Qed.

(** X2. The result of a run on stored documents carries the generated
    identifier, the identifiers of the three documents it was computed
    from, and the two timestamps read from the clock. *)
Theorem result_references_documents (env : Env) (invoice : Invoice.t)
  (po : PurchaseOrder.t) (gr : GoodsReceipt.t) (log : list Division) :
  identified invoice po gr = true ->
  exists r ds,
    perform_three_way_match lower env invoice po gr log = (Ok r, log ++ ds)
    /\ VerificationResult.id r = Some (uuid4 env)
    /\ Invoice.id invoice = Some (VerificationResult.invoice_id r)
    /\ PurchaseOrder.id po = Some (VerificationResult.po_id r)
    /\ GoodsReceipt.id gr = Some (VerificationResult.gr_id r)
    /\ VerificationResult.verification_date r = now_verification_date env
    /\ VerificationResult.created_at r = Some (now_created_at env).
Proof.
  intros Hid. unfold identified in Hid.
  destruct (for_each_run lower po gr (Invoice.line_items invoice)
              initial_locals log) as (its & st & ds & Hloop & _).
  unfold perform_three_way_match, bind. rewrite Hloop.
  destruct (Invoice.id invoice); [|discriminate].
  destruct (PurchaseOrder.id po); [|discriminate].
  destruct (GoodsReceipt.id gr); [|discriminate].
  cbn. eexists. exists ds. split; [reflexivity|]. cbn. repeat split.
Qed.

(** X3. On stored documents the overall status is "pass" exactly when every
    line record has status "pass". *)
Theorem pass_iff_every_record_passes (env : Env) (invoice : Invoice.t)
  (po : PurchaseOrder.t) (gr : GoodsReceipt.t) (log : list Division) :
  identified invoice po gr = true ->
  exists r ds,
    perform_three_way_match lower env invoice po gr log = (Ok r, log ++ ds)
    /\ (VerificationResult.overall_status r = "pass"
        <-> Forall (fun record => MatchRecord.status record = "pass")
              (VerificationResult.line_item_matches r)).
Proof.
  intros Hid.
  destruct (perform_three_way_match_by_line env invoice po gr log Hid)
    as (r & ds & Hrun & Hrecords & _ & Hstatus).
  exists r, ds. split; [exact Hrun|].
  rewrite Hstatus, Hrecords, status_after_pass, all_quiet, !Forall_map.
  split; intros H; eapply Forall_impl; try exact H; intros inv_item Hx;
    cbn [line_record MatchRecord.status] in *;
    now apply (record_status_pass po gr inv_item).
Qed.

(** X4. On stored documents, an overall status "warning" means that exactly
    one line record has a status other than "pass", and that no record is
    "no_match". *)
Theorem warning_has_one_flagged_record (env : Env) (invoice : Invoice.t)
  (po : PurchaseOrder.t) (gr : GoodsReceipt.t) (log : list Division) :
  identified invoice po gr = true ->
  exists r ds,
    perform_three_way_match lower env invoice po gr log = (Ok r, log ++ ds)
    /\ (VerificationResult.overall_status r = "warning" ->
        List.length (filter flagged (VerificationResult.line_item_matches r))
        = 1
        /\ Forall (fun record => MatchRecord.status record <> "no_match")
             (VerificationResult.line_item_matches r)).
Proof.
  intros Hid.
  destruct (perform_three_way_match_by_line env invoice po gr log Hid)
    as (r & ds & Hrun & Hrecords & _ & Hstatus).
  exists r, ds. split; [exact Hrun|].
  rewrite Hstatus, Hrecords, status_after_warning.
  set (its := map (iteration_of lower po gr) (Invoice.line_items invoice)).
  intros Hone.
  destruct (existsb unmatched its) eqn:Hun; [discriminate|].
  split.
  - rewrite (flagged_count po gr _ Hun). fold its.
    pose proof (tripped_checks_sum its) as Hsum.
    pose proof (trips_both_le_variant its) as Hle. lia.
  - rewrite Forall_map. apply Forall_forall. intros inv_item Hin.
    cbn [line_record MatchRecord.status].
    assert (Hu : unmatched (iteration_of lower po gr inv_item) = false).
    { destruct (unmatched (iteration_of lower po gr inv_item)) eqn:E;
        [|reflexivity].
      assert (existsb unmatched its = true); [|congruence].
      apply existsb_exists. exists (iteration_of lower po gr inv_item).
      split; [|exact E]. unfold its. now apply in_map. }
    destruct (match_status_cases po gr inv_item) as [(Hu' & _)|(_ & Hs & _)];
      [congruence|].
    rewrite Hs.
    destruct (trips_quantity (iteration_of lower po gr inv_item));
      [discriminate|].
    destruct (trips_price (iteration_of lower po gr inv_item)); discriminate.
Qed.

(** X5. Every line record of a result has one of the four statuses "pass",
    "price_variance", "quantity_variance", "no_match". *)
Theorem record_status_values (env : Env) (invoice : Invoice.t)
  (po : PurchaseOrder.t) (gr : GoodsReceipt.t) (log : list Division) :
  identified invoice po gr = true ->
  exists r ds,
    perform_three_way_match lower env invoice po gr log = (Ok r, log ++ ds)
    /\ Forall (fun record =>
                 MatchRecord.status record = "pass"
                 \/ MatchRecord.status record = "price_variance"
                 \/ MatchRecord.status record = "quantity_variance"
                 \/ MatchRecord.status record = "no_match")
         (VerificationResult.line_item_matches r).
Proof.
  intros Hid.
  destruct (perform_three_way_match_by_line env invoice po gr log Hid)
    as (r & ds & Hrun & Hrecords & _).
  exists r, ds. split; [exact Hrun|].
  rewrite Hrecords, Forall_map. apply Forall_forall. intros inv_item _.
  cbn [line_record MatchRecord.status].
  destruct (match_status_cases po gr inv_item) as [(_ & Hs & _)|(_ & Hs & _)];
    rewrite Hs; [auto|].
  destruct (trips_quantity (iteration_of lower po gr inv_item)); [auto|].
  destruct (trips_price (iteration_of lower po gr inv_item)); auto.
Qed.

(** X6. The total variance of a result is the running sum of the amount
    variances its own line records report. *)
Theorem total_is_sum_of_record_amounts (env : Env) (invoice : Invoice.t)
  (po : PurchaseOrder.t) (gr : GoodsReceipt.t) (log : list Division) :
  identified invoice po gr = true ->
  exists r ds,
    perform_three_way_match lower env invoice po gr log = (Ok r, log ++ ds)
    /\ VerificationResult.total_variance r
       = running_sum
           (map MatchRecord.amount_variance
              (VerificationResult.line_item_matches r)).
Proof.
  intros Hid.
  destruct (perform_three_way_match_by_line env invoice po gr log Hid)
    as (r & ds & Hrun & Hrecords & Htotal & _).
  exists r, ds. split; [exact Hrun|].
  rewrite Htotal, Hrecords, !map_map. reflexivity.
Qed.

(** X7. The overall status does not depend on the order of the invoice
    lines: two invoices whose line items are permutations of each other get
    the same overall status against the same PO and GR. *)
Theorem status_ignores_line_order (env env' : Env)
  (invoice invoice' : Invoice.t) (po : PurchaseOrder.t) (gr : GoodsReceipt.t)
  (log log' : list Division) :
  identified invoice po gr = true ->
  identified invoice' po gr = true ->
  Permutation (Invoice.line_items invoice) (Invoice.line_items invoice') ->
  exists r r' ds ds',
    perform_three_way_match lower env invoice po gr log = (Ok r, log ++ ds)
    /\ perform_three_way_match lower env' invoice' po gr log'
       = (Ok r', log' ++ ds')
    /\ VerificationResult.overall_status r
       = VerificationResult.overall_status r'.
Proof.
  intros Hid Hid' Hperm.
  destruct (perform_three_way_match_by_line env invoice po gr log Hid)
    as (r & ds & Hrun & _ & _ & Hstatus).
  destruct (perform_three_way_match_by_line env' invoice' po gr log' Hid')
    as (r' & ds' & Hrun' & _ & _ & Hstatus').
  exists r, r', ds, ds'. split; [exact Hrun|]. split; [exact Hrun'|].
  rewrite Hstatus, Hstatus'.
  pose proof (Permutation_map (iteration_of lower po gr) Hperm) as Hits.
  rewrite (existsb_permutation unmatched _ _ Hits).
  rewrite (list_sum_permutation _ _ (Permutation_map tripped_checks Hits)).
  reflexivity.
Qed.

(** X8. Escalation is one-way: adding line items at the end of an invoice
    never improves the overall status.  If the shorter invoice gets "fail"
    so does the longer one, and if the longer one gets "pass" so does the
    shorter one. *)
Theorem more_lines_never_improve_status (env env' : Env)
  (invoice invoice' : Invoice.t) (po : PurchaseOrder.t) (gr : GoodsReceipt.t)
  (log log' : list Division) (added : list LineItem.t) :
  identified invoice po gr = true ->
  identified invoice' po gr = true ->
  Invoice.line_items invoice' = Invoice.line_items invoice ++ added ->
  exists r r' ds ds',
    perform_three_way_match lower env invoice po gr log = (Ok r, log ++ ds)
    /\ perform_three_way_match lower env' invoice' po gr log'
       = (Ok r', log' ++ ds')
    /\ (VerificationResult.overall_status r = "fail" ->
        VerificationResult.overall_status r' = "fail")
    /\ (VerificationResult.overall_status r' = "pass" ->
        VerificationResult.overall_status r = "pass").
Proof.
  intros Hid Hid' Hlines.
  destruct (perform_three_way_match_by_line env invoice po gr log Hid)
    as (r & ds & Hrun & _ & _ & Hstatus).
  destruct (perform_three_way_match_by_line env' invoice' po gr log' Hid')
    as (r' & ds' & Hrun' & _ & _ & Hstatus').
  exists r, r', ds, ds'. split; [exact Hrun|]. split; [exact Hrun'|].
  rewrite Hstatus, Hstatus', Hlines, !map_app, existsb_app, list_sum_app.
  rewrite !status_after_fail, !status_after_pass.
  destruct (existsb unmatched
              (map (iteration_of lower po gr) (Invoice.line_items invoice)));
    cbn [orb]; [split; lia|].
  destruct (existsb unmatched (map (iteration_of lower po gr) added));
    split; lia.
Qed.

Lemma first_match_same_description (items : list LineItem.t)
  (a b : LineItem.t) :
  same_description lower a b ->
  first_match lower items a = first_match lower items b.
Proof.
  unfold same_description. intros Hab.
  induction items as [|x rest IH]; cbn; [reflexivity|].
  now rewrite Hab, IH.
Qed.

(** X9. Matching never consumes a PO or GR line: two invoice lines whose
    descriptions agree case-insensitively are matched against the same PO
    line and the same GR line, so their records report the same PO
    quantity, PO price and GR quantity. *)
Theorem repeated_lines_share_matches (env : Env) (invoice : Invoice.t)
  (po : PurchaseOrder.t) (gr : GoodsReceipt.t) (log : list Division)
  (i j : nat) (a b : LineItem.t) :
  identified invoice po gr = true ->
  nth_error (Invoice.line_items invoice) i = Some a ->
  nth_error (Invoice.line_items invoice) j = Some b ->
  same_description lower a b ->
  exists r ds record_a record_b,
    perform_three_way_match lower env invoice po gr log = (Ok r, log ++ ds)
    /\ nth_error (VerificationResult.line_item_matches r) i = Some record_a
    /\ nth_error (VerificationResult.line_item_matches r) j = Some record_b
    /\ MatchRecord.po_qty record_a = MatchRecord.po_qty record_b
    /\ MatchRecord.po_price record_a = MatchRecord.po_price record_b
    /\ MatchRecord.gr_qty record_a = MatchRecord.gr_qty record_b.
Proof.
  intros Hid Hi Hj Hab.
  destruct (perform_three_way_match_by_line env invoice po gr log Hid)
    as (r & ds & Hrun & Hrecords & _).
  exists r, ds, (line_record a (iteration_of lower po gr a)),
    (line_record b (iteration_of lower po gr b)).
  split; [exact Hrun|]. rewrite Hrecords.
  split; [exact (map_nth_error _ i _ Hi)|].
  split; [exact (map_nth_error _ j _ Hj)|].
  destruct (iteration_of_facts po gr a) as (dsa & Hpa & Hga & _).
  destruct (iteration_of_facts po gr b) as (dsb & Hpb & Hgb & _).
  cbn [line_record MatchRecord.po_qty MatchRecord.po_price MatchRecord.gr_qty].
  rewrite Hpa, Hga, Hpb, Hgb.
  rewrite (first_match_same_description (PurchaseOrder.line_items po) a b Hab).
  rewrite (first_match_same_description (GoodsReceipt.line_items gr) a b Hab).
  repeat split.
Qed.

(** X10. No line record of a result reports a negative amount variance. *)
Theorem amount_variance_never_negative (env : Env) (invoice : Invoice.t)
  (po : PurchaseOrder.t) (gr : GoodsReceipt.t) (log : list Division) :
  identified invoice po gr = true ->
  exists r ds,
    perform_three_way_match lower env invoice po gr log = (Ok r, log ++ ds)
    /\ Forall (fun record =>
                 (MatchRecord.amount_variance record <? 0)%float = false)
         (VerificationResult.line_item_matches r).
Proof.
  intros Hid.
  destruct (perform_three_way_match_by_line env invoice po gr log Hid)
    as (r & ds & Hrun & Hrecords & _).
  exists r, ds. split; [exact Hrun|].
  rewrite Hrecords, Forall_map. apply Forall_forall. intros inv_item _.
  cbn [line_record MatchRecord.amount_variance].
  destruct (match_status_cases po gr inv_item)
    as [(_ & _ & Ha)|(_ & _ & p & g & _ & _ & Ha)]; rewrite Ha.
  - reflexivity.
  - apply float_abs_not_negative.
Qed.

(** X11. A NaN never trips a tolerance.  On a line with both matches, if
    the invoice unit price or the matched PO unit price is NaN, the price
    check does not trip and the record's status is not "price_variance";
    if the invoice quantity or the matched GR quantity is NaN, the quantity
    check does not trip and the status is not "quantity_variance". *)
Theorem nan_is_never_flagged (po : PurchaseOrder.t) (gr : GoodsReceipt.t)
  (overall_status : string) (inv_item : LineItem.t) (log : list Division) :
  exists it overall_status' ds,
    match_line lower po gr overall_status inv_item log
    = (Ok (it, overall_status'), log ++ ds)
    /\ forall p g,
       Iteration.po_match it = Some p -> Iteration.gr_match it = Some g ->
       (is_nan (LineItem.unit_price inv_item) = true
        \/ is_nan (LineItem.unit_price p) = true ->
        trips_price it = false
        /\ MatchRecord.status (line_record inv_item it) <> "price_variance")
       /\ (is_nan (LineItem.quantity inv_item) = true
           \/ is_nan (LineItem.quantity g) = true ->
           trips_quantity it = false
           /\ MatchRecord.status (line_record inv_item it)
              <> "quantity_variance").
Proof.
  destruct (match_line_run lower po gr overall_status inv_item log)
    as (it & ds & Hrun & Hf).
  exists it, (escalation_step overall_status it), ds.
  split; [exact Hrun|]. intros p g Hp Hg.
  destruct Hf as (_ & _ & _ & Hyes).
  destruct (Hyes p g Hp Hg) as (Hpd & Hqd & _ & Hst & _).
  cbn [line_record MatchRecord.status]. rewrite Hst.
  assert (Hratio : forall x y : float,
             is_nan x = true \/ is_nan y = true ->
             (tolerance <? (if (0 <? y)%float then (abs (x - y) / y)%float
                            else 0%float))%float = false).
  { intros x y Hnan. destruct (0 <? y)%float eqn:Hpos; [|reflexivity].
    destruct Hnan as [Hx|Hy].
    - exact (proj1 (float_nan_not_gt _ tolerance
                      (float_ratio_of_nan x y (float_is_nan x Hx)))).
    - apply float_is_nan in Hy.
      destruct (float_nan_not_gt y 0%float Hy) as (H0 & _). congruence. }
  split; intros Hnan.
  - assert (Ht : trips_price it = false)
      by (unfold trips_price; rewrite Hpd; now apply Hratio).
    split; [exact Ht|]. rewrite Ht.
    destruct (trips_quantity it); discriminate.
  - assert (Ht : trips_quantity it = false)
      by (unfold trips_quantity; rewrite Hqd; now apply Hratio).
    split; [exact Ht|]. rewrite Ht.
    destruct (trips_price it); discriminate.
Qed.

End MoreFacts.

(** ** Properties of the invoice parser *)

Section ParserFacts.

Context {char : Type} `{Chars char}.

(** *** The matcher *)

Lemma run_length_firstn (f : char -> bool) (s : list char) :
  forall n, (n <= run_length f s)%nat ->
    Forall (fun c => f c = true) (firstn n s)
    /\ List.length (firstn n s) = n.
Proof.
  induction s as [|c s IH]; intros n Hn; cbn in Hn.
  - assert (n = 0%nat) by lia. subst n. cbn. split; [constructor|reflexivity].
  - destruct n as [|n]; [cbn; split; [constructor|reflexivity]|].
    destruct (f c) eqn:Hc; [|lia].
    destruct (IH n ltac:(lia)) as (Hall & Hlen). cbn. split.
    + constructor; assumption.
    + now rewrite Hlen.
Qed.

Lemma run_length_app (f : char -> bool) (chunk rest : list char) :
  Forall (fun c => f c = true) chunk ->
  run_length f (chunk ++ rest)
  = (List.length chunk + run_length f rest)%nat.
Proof.
  induction 1 as [|c chunk Hc _ IH]; [reflexivity|].
  cbn. now rewrite Hc, IH.
Qed.

Lemma greedy_count_bounds (a : Atom) (s : list char) :
  (greedy_count a s <= run_length (accepts a) s)%nat
  /\ match at_most a with
     | Some m => (greedy_count a s <= m)%nat
     | None => True
     end.
Proof.
  unfold greedy_count. destruct (at_most a) as [m|]; split; (lia || exact I).
Qed.

Lemma consumes_firstn (a : Atom) (s : list char) (m : nat) :
  (m <= greedy_count a s)%nat -> (at_least a <= m)%nat ->
  consumes a (firstn m s).
Proof.
  intros Hm Hlo. destruct (greedy_count_bounds a s) as (Hrun & Hmax).
  destruct (run_length_firstn (accepts a) s m ltac:(lia)) as (Hall & Hlen).
  unfold consumes. rewrite Hlen. split; [exact Hall|]. split; [exact Hlo|].
  destruct (at_most a); [lia|exact I].
Qed.

Lemma backtrack_sound (a : Atom) (k : list char -> option (list char))
  (s : list char) :
  forall n g,
    backtrack a k s n = Some g ->
    exists m g',
      (m <= n)%nat /\ (at_least a <= m)%nat
      /\ k (skipn m s) = Some g'
      /\ g = (if captured a then firstn m s else []) ++ g'.
Proof.
  induction n as [|n IH]; intros g; cbn [backtrack].
  - destruct (Nat.ltb 0 (at_least a)) eqn:Hlo; [discriminate|].
    apply Nat.ltb_ge in Hlo.
    destruct (k (skipn 0 s)) as [g'|] eqn:Hk; [|discriminate].
    intros [= <-]. exists 0%nat, g'. repeat split; (lia || assumption).
  - destruct (Nat.ltb (S n) (at_least a)) eqn:Hlo; [discriminate|].
    apply Nat.ltb_ge in Hlo.
    destruct (k (skipn (S n) s)) as [g'|] eqn:Hk.
    + intros [= <-]. exists (S n), g'. repeat split; (lia || assumption).
    + intros Hrec. destruct (IH g Hrec) as (m & g2 & Hm & Hlo2 & Hk2 & Hg).
      exists m, g2. repeat split; (lia || assumption).
Qed.

Lemma backtrack_last (a : Atom) (s : list char) (n : nat) :
  backtrack a (match_at []) s n
  = if Nat.ltb n (at_least a) then None
    else Some ((if captured a then firstn n s else []) ++ []).
Proof. destruct n; reflexivity. Qed.

(** A match at the start of [s] splits [s] into one chunk per element and a
    remainder; the last element, which nothing follows, keeps all that its
    greedy quantifier takes. *)
Lemma match_at_sound (atoms : list Atom) (a : Atom) :
  forall s g,
    match_at (atoms ++ [a]) s = Some g ->
    exists (chunks : list (list char)) (chunk rest : list char),
      Forall2 consumes atoms chunks
      /\ consumes a chunk
      /\ s = List.concat chunks ++ chunk ++ rest
      /\ g = captured_text atoms chunks
             ++ (if captured a then chunk else [])
      /\ List.length chunk = greedy_count a (chunk ++ rest).
Proof.
  induction atoms as [|b atoms IH]; intros s g; cbn [app match_at].
  - rewrite backtrack_last.
    destruct (Nat.ltb_spec0 (greedy_count a s) (at_least a)) as [Hlt|Hge];
      [discriminate|]. intros [= <-].
    exists [], (firstn (greedy_count a s) s), (skipn (greedy_count a s) s).
    pose proof (consumes_firstn a s (greedy_count a s) ltac:(lia) ltac:(lia))
      as Hc.
    destruct (greedy_count_bounds a s) as (Hrun & _).
    destruct (run_length_firstn (accepts a) s _ Hrun) as (_ & Hlen).
    rewrite firstn_skipn, app_nil_r. cbn.
    split; [constructor|]. split; [exact Hc|].
    split; [reflexivity|]. split; [reflexivity|exact Hlen].
  - intros Hbt. apply backtrack_sound in Hbt.
    destruct Hbt as (m & g' & Hm & Hlo & Hk & ->).
    destruct (IH _ _ Hk) as (chunks & chunk & rest & Hall & Hc & Hs & -> & Hlen).
    exists (firstn m s :: chunks), chunk, rest.
    split; [constructor; [now apply consumes_firstn|exact Hall]|].
    split; [exact Hc|]. split.
    + cbn [List.concat]. rewrite <- app_assoc, <- Hs. symmetry. apply firstn_skipn.
    + split; [|exact Hlen]. cbn [captured_text]. now rewrite app_assoc.
Qed.

Lemma search_sound (atoms : list Atom) (s : list char) (g : list char) :
  search atoms s = Some g ->
  exists before s', s = before ++ s' /\ match_at atoms s' = Some g.
Proof.
  induction s as [|c s IH]; cbn [search].
  - destruct (match_at atoms []) as [g'|] eqn:Hm; [|discriminate].
    intros [= <-]. now exists [], [].
  - destruct (match_at atoms (c :: s)) as [g'|] eqn:Hm.
    + intros [= <-]. now exists [], (c :: s).
    + intros Hrec. destruct (IH Hrec) as (before & s' & -> & Hs').
      now exists (c :: before), s'.
Qed.

(** The text of a group that runs to the end of the pattern, after
    elements outside the group. *)
Lemma captured_text_outside (atoms : list Atom) (chunks : list (list char)) :
  Forall (fun a => captured a = false) atoms ->
  captured_text atoms chunks = [].
Proof.
  intros Hall. revert chunks.
  induction Hall as [|a atoms Ha _ IH]; intros [|chunk chunks]; cbn;
    try reflexivity. rewrite Ha. apply IH.
Qed.

Lemma captured_text_inside (atoms : list Atom) (chunks : list (list char)) :
  Forall (fun a => captured a = true) atoms ->
  Forall2 consumes atoms chunks ->
  captured_text atoms chunks = List.concat chunks.
Proof.
  intros Hall Hc. induction Hc as [|a chunk atoms chunks _ _ IH]; cbn;
    [reflexivity|].
  inversion Hall as [|? ? Ha Hrest]; subst. rewrite Ha. f_equal. now apply IH.
Qed.

Lemma captured_text_app (front back : list Atom)
  (chunks1 chunks2 : list (list char)) :
  Forall2 consumes front chunks1 ->
  captured_text (front ++ back) (chunks1 ++ chunks2)
  = captured_text front chunks1 ++ captured_text back chunks2.
Proof.
  induction 1 as [|a chunk front chunks1 _ _ IH]; cbn; [reflexivity|].
  now rewrite IH, app_assoc.
Qed.

(** A pattern needs a character for each element that must match at least
    once. *)
Lemma consumes_needs_character (a : Atom) (chunk : list char) :
  consumes a chunk -> (1 <= at_least a)%nat ->
  exists c, In c chunk /\ accepts a c = true.
Proof.
  intros (Hall & Hlo & _) Hone. destruct chunk as [|c chunk]; [cbn in Hlo; lia|].
  exists c. split; [now left|]. now inversion Hall.
Qed.

Lemma match_at_needs_character (atoms : list (@Atom char))
  (a b : @Atom char) :
  forall (front back : list (@Atom char)) (s g : list char),
    atoms ++ [a] = front ++ b :: back ->
    (1 <= at_least b)%nat ->
    match_at (atoms ++ [a]) s = Some g ->
    exists c, In c s /\ accepts b c = true.
Proof.
  intros front back s g Hsplit Hone Hm.
  destruct (match_at_sound atoms a s g Hm)
    as (chunks & chunk & rest & Hall & Hc & -> & _).
  assert (Hall' : Forall2 consumes (atoms ++ [a]) (chunks ++ [chunk]))
    by (apply Forall2_app; [exact Hall|now constructor]).
  rewrite Hsplit in Hall'.
  apply Forall2_app_inv_l in Hall'.
  destruct Hall' as (c1 & c2 & _ & Hback & Hchunks).
  inversion Hback as [|? chunk' ? ? Hcons _]; subst.
  destruct (consumes_needs_character _ _ Hcons Hone) as (c & Hin & Hf).
  exists c. split; [|exact Hf].
  assert (Hin' : In c (List.concat (chunks ++ [chunk]))).
  { rewrite Hchunks, concat_app. apply in_or_app. right. cbn.
    apply in_or_app. now left. }
  rewrite concat_app in Hin'. cbn in Hin'. rewrite app_nil_r in Hin'.
  rewrite app_assoc. apply in_or_app. now left.
Qed.

Lemma search_needs_character (atoms : list (@Atom char))
  (a b : @Atom char) (front back : list (@Atom char)) (s : list char) :
  atoms ++ [a] = front ++ b :: back ->
  (1 <= at_least b)%nat ->
  (forall c, In c s -> accepts b c = false) ->
  search (atoms ++ [a]) s = None.
Proof.
  intros Hsplit Hone Hnone.
  destruct (search (atoms ++ [a]) s) as [g|] eqn:Hs; [|reflexivity].
  destruct (search_sound _ _ _ Hs) as (before & s' & -> & Hm).
  destruct (match_at_needs_character atoms a b front back s' g Hsplit Hone Hm)
    as (c & Hin & Hc).
  rewrite Hnone in Hc; [discriminate|]. apply in_or_app. now right.
Qed.

(** *** The three fields the parser fills *)

Lemma parsed_invoice_number (text : list char) :
  invoice_number (parse_invoice_from_text text)
  = match search invoice_pattern text with
    | Some number => number
    | None => []
    end.
Proof.
  unfold parse_invoice_from_text.
  destruct (search invoice_pattern text), (search total_pattern text),
    (search date_pattern text); reflexivity.
Qed.

Lemma parsed_total_amount (text : list char) :
  total_amount (parse_invoice_from_text text)
  = match search total_pattern text with
    | Some amount => float_of amount
    | None => 0%float
    end.
Proof.
  unfold parse_invoice_from_text.
  destruct (search invoice_pattern text), (search total_pattern text),
    (search date_pattern text); reflexivity.
Qed.

Lemma parsed_invoice_date (text : list char) :
  invoice_date (parse_invoice_from_text text)
  = match search date_pattern text with
    | Some date => date
    | None => []
    end.
Proof.
  unfold parse_invoice_from_text.
  destruct (search invoice_pattern text), (search total_pattern text),
    (search date_pattern text); reflexivity.
Qed.

(** X12. The invoice number the parser returns is made of word characters
    only, stands in the text as it is, and is a whole run of word
    characters: when it is not empty, the character that follows it in the
    text, if any, is not a word character. *)
Theorem invoice_number_is_a_whole_word (text : list char) :
  Forall (fun c => is_word c = true)
    (invoice_number (parse_invoice_from_text text))
  /\ exists before after,
       text = before ++ invoice_number (parse_invoice_from_text text) ++ after
       /\ (invoice_number (parse_invoice_from_text text) <> [] ->
           match after with
           | [] => True
           | c :: _ => is_word c = false
           end).
Proof.
  rewrite parsed_invoice_number.
  destruct (search invoice_pattern text) as [number|] eqn:Hs.
  2:{ split; [constructor|]. exists [], text. split; [reflexivity|].
      intros Hne. now contradiction Hne. }
  destruct (search_sound _ _ _ Hs) as (before & s' & -> & Hm).
  change invoice_pattern
    with ((literal "invoice"
           ++ [star is_space; optional (exactly "#"); star is_space;
               optional (exactly ":"); star is_space])
          ++ [group (plus is_word)]) in Hm.
  destruct (match_at_sound _ _ _ _ Hm)
    as (chunks & chunk & rest & Hall & (Hword & _) & -> & -> & Hlen).
  rewrite captured_text_outside by (repeat constructor).
  cbn [captured group app]. split; [exact Hword|].
  exists (before ++ List.concat chunks), rest.
  split; [now rewrite <- app_assoc|]. intros _.
  unfold greedy_count in Hlen. cbn [at_most group plus accepts] in Hlen.
  rewrite (run_length_app _ _ _ Hword) in Hlen.
  destruct rest as [|c rest]; [exact I|]. cbn [run_length] in Hlen.
  change (accepts (group (plus is_word)) c) with (is_word c) in Hlen.
  revert Hlen. destruct (is_word c); intros Hlen; [lia|reflexivity].
Qed.

(** X13. The total is 0.0 unless the parser found an amount, and then it is
    [float] of a text taken from the input that is made of digits with at
    most one dot and starts with a digit: [float] is never applied to
    anything else. *)
Theorem total_is_read_from_decimal_text (text : list char) :
  (search total_pattern text = None
   /\ total_amount (parse_invoice_from_text text) = 0%float)
  \/ exists amount,
       search total_pattern text = Some amount
       /\ total_amount (parse_invoice_from_text text) = float_of amount
       /\ decimal_text amount
       /\ occurs_in amount text.
Proof.
  rewrite parsed_total_amount.
  destruct (search total_pattern text) as [amount|] eqn:Hs; [right|now left].
  exists amount. split; [reflexivity|]. split; [reflexivity|].
  destruct (search_sound _ _ _ Hs) as (before & s' & -> & Hm).
  change total_pattern
    with (((literal "total"
            ++ [star is_space; optional (exactly ":"); star is_space;
                optional (exactly "$")])
           ++ [group (plus is_digit); group (optional (exactly "."))])
          ++ [group (star is_digit)]) in Hm.
  destruct (match_at_sound _ _ _ _ Hm)
    as (chunks & fraction & rest & Hall & (Hfraction & _) & -> & -> & _).
  apply Forall2_app_inv_l in Hall.
  destruct Hall as (outside & inside & Houtside & Hinside & ->).
  inversion Hinside as [|? whole ? tail (Hwhole & Hlo & _) Htail]; subst.
  inversion Htail as [|? dot ? tail' (Hdot & _ & Hhi) Hnil]; subst.
  inversion Hnil; subst.
  rewrite (captured_text_app _ _ _ _ Houtside).
  rewrite captured_text_outside by (repeat constructor).
  cbn [captured_text captured group app]. rewrite !app_nil_r.
  split.
  - exists whole, dot, fraction. rewrite <- app_assoc.
    split; [reflexivity|]. split.
    { intros ->. cbn in Hlo. lia. }
    split; [exact Hwhole|]. split; [exact Hfraction|].
    cbn in Hhi. destruct dot as [|c [|c' dot]]; [now left| |cbn in Hhi; lia].
    right. exists c. split; [reflexivity|]. now inversion Hdot.
  - exists (before ++ List.concat outside), rest.
    rewrite concat_app. cbn [List.concat]. rewrite app_nil_r.
    now rewrite <- !app_assoc.
Qed.

(** X14. The date the parser returns is empty or has the shape
    digits-separator-digits-separator-digits, with one or two digits, one or
    two digits and two to four digits, the separators being [/] or [-], and
    it stands in the text as it is. *)
Theorem invoice_date_shape (text : list char) :
  invoice_date (parse_invoice_from_text text) = []
  \/ (date_text (invoice_date (parse_invoice_from_text text))
      /\ occurs_in (invoice_date (parse_invoice_from_text text)) text).
Proof.
  rewrite parsed_invoice_date.
  destruct (search date_pattern text) as [date|] eqn:Hs; [right|now left].
  destruct (search_sound _ _ _ Hs) as (before & s' & -> & Hm).
  change date_pattern
    with ([group (between 1 2 is_digit); group (one is_separator);
           group (between 1 2 is_digit); group (one is_separator)]
          ++ [group (between 2 4 is_digit)]) in Hm.
  destruct (match_at_sound _ _ _ _ Hm)
    as (chunks & d3 & rest & Hall & (Hd3 & Hlo3 & Hhi3) & -> & -> & _).
  inversion Hall as [|? d1 ? t1 (Hd1 & Hlo1 & Hhi1) H1]; subst.
  inversion H1 as [|? s1 ? t2 (Hs1 & Hlos1 & His1) H2]; subst.
  inversion H2 as [|? d2 ? t3 (Hd2 & Hlo2 & Hhi2) H3]; subst.
  inversion H3 as [|? s2 ? t4 (Hs2 & Hlos2 & His2) H4]; subst.
  inversion H4; subst.
  cbn in Hlo1, Hhi1, Hlos1, His1, Hlo2, Hhi2, Hlos2, His2, Hlo3, Hhi3.
  destruct s1 as [|c1 [|? s1]]; cbn in Hlos1, His1; try lia.
  destruct s2 as [|c2 [|? s2]]; cbn in Hlos2, His2; try lia.
  cbn [captured_text captured group app List.concat].
  assert (Hdate : (d1 ++ c1 :: d2 ++ [c2]) ++ d3
                  = d1 ++ [c1] ++ d2 ++ [c2] ++ d3)
    by (repeat (rewrite <- app_assoc; cbn [app]); reflexivity).
  split.
  - exists d1, c1, d2, c2, d3.
    split; [exact Hdate|].
    split; [rewrite !Forall_app; now repeat split|].
    split; [now inversion Hs1|]. split; [now inversion Hs2|]. lia.
  - exists before, rest. now rewrite <- !app_assoc.
Qed.

(** X15. A text without any digit has no total and no date: the parser
    leaves the total at 0.0 and the date empty. *)
Theorem no_digit_no_total_no_date (text : list char) :
  (forall c, In c text -> is_digit c = false) ->
  total_amount (parse_invoice_from_text text) = 0%float
  /\ invoice_date (parse_invoice_from_text text) = [].
Proof.
  intros Hnone. rewrite parsed_total_amount, parsed_invoice_date.
  change total_pattern
    with ((literal "total"
           ++ [star is_space; optional (exactly ":"); star is_space;
               optional (exactly "$"); group (plus is_digit);
               group (optional (exactly "."))])
          ++ [group (star is_digit)]).
  rewrite (search_needs_character
             (literal "total"
              ++ [star is_space; optional (exactly ":"); star is_space;
                  optional (exactly "$"); group (plus is_digit);
                  group (optional (exactly "."))])
             (group (star is_digit)) (group (plus is_digit))
             (literal "total"
              ++ [star is_space; optional (exactly ":"); star is_space;
                  optional (exactly "$")])
             [group (optional (exactly ".")); group (star is_digit)] text
             eq_refl ltac:(cbn; lia) Hnone).
  change date_pattern
    with ([group (between 1 2 is_digit); group (one is_separator);
           group (between 1 2 is_digit); group (one is_separator)]
          ++ [group (between 2 4 is_digit)]).
  rewrite (search_needs_character
             [group (between 1 2 is_digit); group (one is_separator);
              group (between 1 2 is_digit); group (one is_separator)]
             (group (between 2 4 is_digit)) (group (between 1 2 is_digit)) []
             [group (one is_separator); group (between 1 2 is_digit);
              group (one is_separator); group (between 2 4 is_digit)] text
             eq_refl ltac:(cbn; lia) Hnone).
  split; reflexivity.
Qed.

End ParserFacts.

(** ** The further properties on concrete inputs *)

(** The parser on a printed invoice: the number stops at the hyphen, the
    amount is the one after "Subtotal", which contains "total". *)
Example printed_invoice_is_parsed :
  parse_ascii printed_invoice
  = {| invoice_number := list_ascii_of_string "INV";
       vendor_name := [];
       invoice_date := list_ascii_of_string "01/15/2024";
       total_amount := 90.5;
       line_items := [] |}.
Proof. vm_compute. reflexivity. Qed.

Lemma result_references_documents_witness :
  identified laptops_invoice laptops_po laptops_gr = true
  /\ exists r ds,
       perform_three_way_match ascii_lower sample_env
         laptops_invoice laptops_po laptops_gr [] = (Ok r, [] ++ ds)
       /\ VerificationResult.id r = Some (uuid4 sample_env)
       /\ Invoice.id laptops_invoice = Some (VerificationResult.invoice_id r)
       /\ PurchaseOrder.id laptops_po = Some (VerificationResult.po_id r)
       /\ GoodsReceipt.id laptops_gr = Some (VerificationResult.gr_id r)
       /\ VerificationResult.verification_date r
          = now_verification_date sample_env
       /\ VerificationResult.created_at r = Some (now_created_at sample_env).
Proof.
  split; [reflexivity|].
  apply (result_references_documents ascii_lower sample_env
           laptops_invoice laptops_po laptops_gr []).
  reflexivity.
Defined.

Lemma pass_iff_every_record_passes_witness :
  identified laptops_invoice laptops_po laptops_gr = true
  /\ exists r ds,
       perform_three_way_match ascii_lower sample_env
         laptops_invoice laptops_po laptops_gr [] = (Ok r, [] ++ ds)
       /\ (VerificationResult.overall_status r = "pass"
           <-> Forall (fun record => MatchRecord.status record = "pass")
                 (VerificationResult.line_item_matches r)).
Proof.
  split; [reflexivity|].
  apply (pass_iff_every_record_passes ascii_lower sample_env
           laptops_invoice laptops_po laptops_gr []).
  reflexivity.
Defined.

Lemma warning_has_one_flagged_record_witness :
  identified laptops_invoice laptops_po laptops_gr = true
  /\ exists r ds,
       perform_three_way_match ascii_lower sample_env
         laptops_invoice laptops_po laptops_gr [] = (Ok r, [] ++ ds)
       /\ (VerificationResult.overall_status r = "warning" ->
           List.length
             (filter flagged (VerificationResult.line_item_matches r)) = 1
           /\ Forall (fun record => MatchRecord.status record <> "no_match")
                (VerificationResult.line_item_matches r)).
Proof.
  split; [reflexivity|].
  apply (warning_has_one_flagged_record ascii_lower sample_env
           laptops_invoice laptops_po laptops_gr []).
  reflexivity.
Defined.

Lemma record_status_values_witness :
  identified mice_invoice mice_po mice_gr = true
  /\ exists r ds,
       perform_three_way_match ascii_lower sample_env
         mice_invoice mice_po mice_gr [] = (Ok r, [] ++ ds)
       /\ Forall (fun record =>
                    MatchRecord.status record = "pass"
                    \/ MatchRecord.status record = "price_variance"
                    \/ MatchRecord.status record = "quantity_variance"
                    \/ MatchRecord.status record = "no_match")
            (VerificationResult.line_item_matches r).
Proof.
  split; [reflexivity|].
  apply (record_status_values ascii_lower sample_env
           mice_invoice mice_po mice_gr []).
  reflexivity.
Defined.

Lemma total_is_sum_of_record_amounts_witness :
  identified mice_invoice mice_po mice_gr = true
  /\ exists r ds,
       perform_three_way_match ascii_lower sample_env
         mice_invoice mice_po mice_gr [] = (Ok r, [] ++ ds)
       /\ VerificationResult.total_variance r
          = running_sum
              (map MatchRecord.amount_variance
                 (VerificationResult.line_item_matches r)).
Proof.
  split; [reflexivity|].
  apply (total_is_sum_of_record_amounts ascii_lower sample_env
           mice_invoice mice_po mice_gr []).
  reflexivity.
Defined.

Lemma status_ignores_line_order_witness :
  identified mice_invoice mice_po mice_gr = true
  /\ identified mice_first_invoice mice_po mice_gr = true
  /\ Permutation (Invoice.line_items mice_invoice)
       (Invoice.line_items mice_first_invoice)
  /\ exists r r' ds ds',
       perform_three_way_match ascii_lower sample_env
         mice_invoice mice_po mice_gr [] = (Ok r, [] ++ ds)
       /\ perform_three_way_match ascii_lower sample_env
            mice_first_invoice mice_po mice_gr [] = (Ok r', [] ++ ds')
       /\ VerificationResult.overall_status r
          = VerificationResult.overall_status r'.
Proof.
  split; [reflexivity|]. split; [reflexivity|].
  split; [apply perm_swap|].
  apply (status_ignores_line_order ascii_lower sample_env sample_env
           mice_invoice mice_first_invoice mice_po mice_gr [] []).
  - reflexivity.
  - reflexivity.
  - apply perm_swap.
Defined.

Lemma more_lines_never_improve_status_witness :
  identified laptops_invoice mice_po mice_gr = true
  /\ identified mice_invoice mice_po mice_gr = true
  /\ Invoice.line_items mice_invoice
     = Invoice.line_items laptops_invoice ++ [item "Mice" 5 100 500]
  /\ exists r r' ds ds',
       perform_three_way_match ascii_lower sample_env
         laptops_invoice mice_po mice_gr [] = (Ok r, [] ++ ds)
       /\ perform_three_way_match ascii_lower sample_env
            mice_invoice mice_po mice_gr [] = (Ok r', [] ++ ds')
       /\ (VerificationResult.overall_status r = "fail" ->
           VerificationResult.overall_status r' = "fail")
       /\ (VerificationResult.overall_status r' = "pass" ->
           VerificationResult.overall_status r = "pass").
Proof.
  split; [reflexivity|]. split; [reflexivity|]. split; [reflexivity|].
  apply (more_lines_never_improve_status ascii_lower sample_env sample_env
           laptops_invoice mice_invoice mice_po mice_gr [] []
           [item "Mice" 5 100 500]).
  - reflexivity.
  - reflexivity.
  - reflexivity.
Defined.

Lemma repeated_lines_share_matches_witness :
  identified laptops_twice_invoice laptops_po laptops_gr = true
  /\ nth_error (Invoice.line_items laptops_twice_invoice) 0
     = Some (item "Laptops" 10 1000 10000)
  /\ nth_error (Invoice.line_items laptops_twice_invoice) 1
     = Some (item "LAPTOPS" 2 1050 2100)
  /\ same_description ascii_lower (item "Laptops" 10 1000 10000)
       (item "LAPTOPS" 2 1050 2100)
  /\ exists r ds record_a record_b,
       perform_three_way_match ascii_lower sample_env
         laptops_twice_invoice laptops_po laptops_gr [] = (Ok r, [] ++ ds)
       /\ nth_error (VerificationResult.line_item_matches r) 0 = Some record_a
       /\ nth_error (VerificationResult.line_item_matches r) 1 = Some record_b
       /\ MatchRecord.po_qty record_a = MatchRecord.po_qty record_b
       /\ MatchRecord.po_price record_a = MatchRecord.po_price record_b
       /\ MatchRecord.gr_qty record_a = MatchRecord.gr_qty record_b.
Proof.
  split; [reflexivity|]. split; [reflexivity|]. split; [reflexivity|].
  split; [reflexivity|].
  apply (repeated_lines_share_matches ascii_lower sample_env
           laptops_twice_invoice laptops_po laptops_gr [] 0 1
           (item "Laptops" 10 1000 10000) (item "LAPTOPS" 2 1050 2100)).
  - reflexivity.
  - reflexivity.
  - reflexivity.
  - reflexivity.
Defined.

Lemma amount_variance_never_negative_witness :
  identified mice_invoice mice_po mice_gr = true
  /\ exists r ds,
       perform_three_way_match ascii_lower sample_env
         mice_invoice mice_po mice_gr [] = (Ok r, [] ++ ds)
       /\ Forall (fun record =>
                    (MatchRecord.amount_variance record <? 0)%float = false)
            (VerificationResult.line_item_matches r).
Proof.
  split; [reflexivity|].
  apply (amount_variance_never_negative ascii_lower sample_env
           mice_invoice mice_po mice_gr []).
  reflexivity.
Defined.

Lemma no_digit_no_total_no_date_witness :
  (forall c, In c (list_ascii_of_string undated_note) -> is_digit c = false)
  /\ total_amount (parse_invoice_from_text (list_ascii_of_string undated_note))
     = 0%float
  /\ invoice_date (parse_invoice_from_text (list_ascii_of_string undated_note))
     = [].
Proof.
  assert (Hnone : forall c, In c (list_ascii_of_string undated_note) ->
                            is_digit c = false).
  { intros c Hin.
    assert (Hall : forallb (fun c => negb (ascii_digit c))
                     (list_ascii_of_string undated_note) = true)
      by reflexivity.
    rewrite forallb_forall in Hall. specialize (Hall c Hin).
    cbn [is_digit ascii_chars]. destruct (ascii_digit c);
      [discriminate|reflexivity]. }
  split; [exact Hnone|].
  apply (no_digit_no_total_no_date (list_ascii_of_string undated_note)).
  exact Hnone.
Defined.

(** Scenario A: the invoice line, its PO line and its GR line. *)
Lemma line_status_by_variance_witness :
  identified laptops_invoice laptops_po laptops_gr = true
  /\ nth_error (Invoice.line_items laptops_invoice) 0
     = Some (item "Laptops" 10 1000 10000)
  /\ first_satisfying
       (same_description ascii_lower (item "Laptops" 10 1000 10000))
       (PurchaseOrder.line_items laptops_po)
       (Some (item "laptops" 10 1050 10500))
  /\ first_satisfying
       (same_description ascii_lower (item "Laptops" 10 1000 10000))
       (GoodsReceipt.line_items laptops_gr)
       (Some (item "LAPTOPS" 9 1050 9450))
  /\ exists r ds record,
       perform_three_way_match ascii_lower sample_env
         laptops_invoice laptops_po laptops_gr [] = (Ok r, [] ++ ds)
       /\ nth_error (VerificationResult.line_item_matches r) 0 = Some record
       /\ MatchRecord.description record = "Laptops"
       /\ MatchRecord.status record = "quantity_variance".
Proof.
  assert (Hpo : first_satisfying
                  (same_description ascii_lower (item "Laptops" 10 1000 10000))
                  (PurchaseOrder.line_items laptops_po)
                  (Some (item "laptops" 10 1050 10500))).
  { exists [], []. split; [reflexivity|]. split; [reflexivity|]. intros b []. }
  assert (Hgr : first_satisfying
                  (same_description ascii_lower (item "Laptops" 10 1000 10000))
                  (GoodsReceipt.line_items laptops_gr)
                  (Some (item "LAPTOPS" 9 1050 9450))).
  { exists [], []. split; [reflexivity|]. split; [reflexivity|]. intros b []. }
  split; [reflexivity|]. split; [reflexivity|].
  split; [exact Hpo|]. split; [exact Hgr|].
  destruct (line_status_by_variance ascii_lower sample_env
              laptops_invoice laptops_po laptops_gr [] 0
              (item "Laptops" 10 1000 10000) (item "laptops" 10 1050 10500)
              (item "LAPTOPS" 9 1050 9450) eq_refl eq_refl Hpo Hgr)
    as (r & ds & record & Hrun & Hnth & Hdesc & Hquantity & _).
  exists r, ds, record.
  split; [exact Hrun|]. split; [exact Hnth|]. split; [exact Hdesc|].
  apply Hquantity. reflexivity.
Defined.

Lemma amount_variance_formula_witness :
  identified laptops_invoice laptops_po laptops_gr = true
  /\ nth_error (Invoice.line_items laptops_invoice) 0
     = Some (item "Laptops" 10 1000 10000)
  /\ first_satisfying
       (same_description ascii_lower (item "Laptops" 10 1000 10000))
       (PurchaseOrder.line_items laptops_po)
       (Some (item "laptops" 10 1050 10500))
  /\ first_satisfying
       (same_description ascii_lower (item "Laptops" 10 1000 10000))
       (GoodsReceipt.line_items laptops_gr)
       (Some (item "LAPTOPS" 9 1050 9450))
  /\ exists r ds record,
       perform_three_way_match ascii_lower sample_env
         laptops_invoice laptops_po laptops_gr [] = (Ok r, [] ++ ds)
       /\ nth_error (VerificationResult.line_item_matches r) 0 = Some record
       /\ MatchRecord.description record = "Laptops"
       /\ MatchRecord.amount_variance record = 550%float.
Proof.
  assert (Hpo : first_satisfying
                  (same_description ascii_lower (item "Laptops" 10 1000 10000))
                  (PurchaseOrder.line_items laptops_po)
                  (Some (item "laptops" 10 1050 10500))).
  { exists [], []. split; [reflexivity|]. split; [reflexivity|]. intros b []. }
  assert (Hgr : first_satisfying
                  (same_description ascii_lower (item "Laptops" 10 1000 10000))
                  (GoodsReceipt.line_items laptops_gr)
                  (Some (item "LAPTOPS" 9 1050 9450))).
  { exists [], []. split; [reflexivity|]. split; [reflexivity|]. intros b []. }
  split; [reflexivity|]. split; [reflexivity|].
  split; [exact Hpo|]. split; [exact Hgr|].
  destruct (amount_variance_formula ascii_lower sample_env
              laptops_invoice laptops_po laptops_gr [] 0
              (item "Laptops" 10 1000 10000) (item "laptops" 10 1050 10500)
              (item "LAPTOPS" 9 1050 9450) eq_refl eq_refl Hpo Hgr)
    as (r & ds & record & Hrun & Hnth & Hdesc & Hamount).
  exists r, ds, record.
  split; [exact Hrun|]. split; [exact Hnth|]. split; [exact Hdesc|].
  rewrite Hamount. reflexivity.
Defined.
